(** * LimeSuiteNG: the SDRDevice streaming interface

    Shallow embedding of [src/include/limesuite/SDRDevice.h].

    The header declares the data carried across the streaming interface
    ([StreamStats], [StreamConfig], [StreamConfig::Extras], [StreamMeta]),
    their constructors (which zero the object with [memset]) and the
    default bodies of the optional GPIO and custom-parameter operations.
    Those are embedded from the C++ text.

    The streaming operations themselves ([StreamSetup], [StreamStart],
    [StreamStop], [StreamRx], [StreamTx], [StreamStatus]) are pure virtual
    in the header.  Their behaviour is taken from the design document of
    the streaming core and lives in the second half of this file, in
    definitions marked "Modelled from the spec". *)

From Stdlib Require Import ZArith NArith List Bool Lia QArith.
From Stdlib Require Import Floats.SpecFloat.
From Stdlib Require Import Strings.Byte Strings.String.
From stdpp Require Import gmap list fin_maps.

Local Open Scope Z_scope.

(** ** Constants of the class *)

Definition MAX_CHANNEL_COUNT : N := 16.
Definition MAX_RFSOC_COUNT : N := 16.

(** ** Raw object memory

    An object is the sequence of its bytes.  [memset] overwrites the first
    [n] bytes, and a field is read back from its offset with the decoder of
    its C++ type.  Offsets and [sizeof] are chosen by the compiler, so they
    are parameters of the constructors (records named [..._layout]). *)

Definition memset (mem : list byte) (c : byte) (n : nat) : list byte :=
  replicate n c ++ drop n mem.

(** [p[i] = c] on raw memory; a write past the end is not modelled. *)
Definition store_byte (mem : list byte) (off : nat) (c : byte) : list byte :=
  <[off := c]> mem.

Definition field_bytes (mem : list byte) (off size : nat) : list byte :=
  take size (drop off mem).

(** Little-endian unsigned value of a byte string. *)
Fixpoint le_unsigned (bs : list byte) : N :=
  match bs with
  | [] => 0%N
  | b :: bs' => (Byte.to_N b + 256 * le_unsigned bs')%N
  end.

(** Two's complement reading of a [w]-bit pattern. *)
Definition to_signed (w : N) (u : N) : Z :=
  if (u <? 2 ^ (w - 1))%N then Z.of_N u else Z.of_N u - 2 ^ Z.of_N w.

Definition load_u8 (mem : list byte) (off : nat) : N := le_unsigned (field_bytes mem off 1).
Definition load_u16 (mem : list byte) (off : nat) : N := le_unsigned (field_bytes mem off 2).
Definition load_u32 (mem : list byte) (off : nat) : N := le_unsigned (field_bytes mem off 4).
Definition load_u64 (mem : list byte) (off : nat) : N := le_unsigned (field_bytes mem off 8).
Definition load_i64 (mem : list byte) (off : nat) : Z := to_signed 64 (load_u64 mem off).

(** [bool]: any non-zero byte reads as [true]. *)
Definition load_bool (mem : list byte) (off : nat) : bool :=
  negb (load_u8 mem off =? 0)%N.

(** IEEE 754 binary32, the C++ [float]. *)
Definition decode_binary32 (bits : N) : spec_float :=
  let sign := N.testbit bits 31 in
  let e := ((bits / 2 ^ 23) mod 2 ^ 8)%N in
  let m := (bits mod 2 ^ 23)%N in
  if (e =? 0)%N then
    match m with
    | N0 => S754_zero sign
    | Npos p => S754_finite sign p (-149)
    end
  else if (e =? 255)%N then
    match m with
    | N0 => S754_infinity sign
    | Npos _ => S754_nan
    end
  else
    match (m + 2 ^ 23)%N with
    | N0 => S754_nan
    | Npos p => S754_finite sign p (Z.of_N e - 150)
    end.

Definition load_float (mem : list byte) (off : nat) : spec_float :=
  decode_binary32 (load_u32 mem off).

(** [uint8_t a[n]] *)
Definition load_u8_array (mem : list byte) (off n : nat) : list N :=
  map (fun i => load_u8 mem (off + i)) (seq 0 n).

(** Pointers are addresses; the null pointer is address zero. *)
Definition pointer : Type := N.
Definition nullptr : pointer := 0%N.

Definition load_ptr (ptr_size : nat) (mem : list byte) (off : nat) : pointer :=
  le_unsigned (field_bytes mem off ptr_size).

(** ** [enum DataFormat] *)

Inductive DataFormat : Type := I16 | I12 | F32.

(** An enumeration object holds an integer; only three values name an
    enumerator. *)
Definition DataFormat_of_N (v : N) : option DataFormat :=
  match v with
  | 0%N => Some I16
  | 1%N => Some I12
  | 2%N => Some F32
  | _ => None
  end.

Definition DataFormat_to_N (f : DataFormat) : N :=
  match f with I16 => 0 | I12 => 1 | F32 => 2 end%N.

(** ** [struct StreamStats] *)

Module StreamStats.

Record t : Type := mk {
  timestamp : N;              (* uint64_t *)
  bytesTransferred : Z;       (* int64_t *)
  packets : Z;                (* int64_t *)
  FIFO_filled : spec_float;   (* float *)
  dataRate_Bps : spec_float;  (* float *)
  txDataRate_Bps : spec_float;(* float *)
  overrun : N;                (* uint32_t *)
  underrun : N;               (* uint32_t *)
  loss : N;                   (* uint32_t *)
  late : N;                   (* uint32_t *)
  isTx : bool
}.

Record layout : Type := mk_layout {
  sizeof : nat;
  off_timestamp : nat;
  off_bytesTransferred : nat;
  off_packets : nat;
  off_FIFO_filled : nat;
  off_dataRate_Bps : nat;
  off_txDataRate_Bps : nat;
  off_overrun : nat;
  off_underrun : nat;
  off_loss : nat;
  off_late : nat;
  off_isTx : nat
}.

(** Every field lies inside the object. *)
Definition layout_ok (L : layout) : Prop :=
  (off_timestamp L + 8 <= sizeof L /\
   off_bytesTransferred L + 8 <= sizeof L /\
   off_packets L + 8 <= sizeof L /\
   off_FIFO_filled L + 4 <= sizeof L /\
   off_dataRate_Bps L + 4 <= sizeof L /\
   off_txDataRate_Bps L + 4 <= sizeof L /\
   off_overrun L + 4 <= sizeof L /\
   off_underrun L + 4 <= sizeof L /\
   off_loss L + 4 <= sizeof L /\
   off_late L + 4 <= sizeof L /\
   off_isTx L + 1 <= sizeof L)%nat.

(** The typed view of the object stored in [mem]. *)
Definition load (L : layout) (mem : list byte) : t :=
  {| timestamp := load_u64 mem (off_timestamp L);
     bytesTransferred := load_i64 mem (off_bytesTransferred L);
     packets := load_i64 mem (off_packets L);
     FIFO_filled := load_float mem (off_FIFO_filled L);
     dataRate_Bps := load_float mem (off_dataRate_Bps L);
     txDataRate_Bps := load_float mem (off_txDataRate_Bps L);
     overrun := load_u32 mem (off_overrun L);
     underrun := load_u32 mem (off_underrun L);
     loss := load_u32 mem (off_loss L);
     late := load_u32 mem (off_late L);
     isTx := load_bool mem (off_isTx L) |}.

(** [StreamStats() { memset(this, 0, sizeof(StreamStats)); }]
    [raw] is the storage the object is constructed in. *)
Definition ctor_mem (L : layout) (raw : list byte) : list byte :=
  memset raw x00 (sizeof L).

Definition ctor (L : layout) (raw : list byte) : t := load L (ctor_mem L raw).

(** The layout of the Itanium C++ ABI on a 64-bit target. *)
Definition lp64 : layout :=
  {| sizeof := 56;
     off_timestamp := 0; off_bytesTransferred := 8; off_packets := 16;
     off_FIFO_filled := 24; off_dataRate_Bps := 28; off_txDataRate_Bps := 32;
     off_overrun := 36; off_underrun := 40; off_loss := 44; off_late := 48;
     off_isTx := 52 |}.

End StreamStats.

(** ** [struct StreamConfig] and [StreamConfig::Extras] *)

Module Extras.

Record t : Type := mk {
  usePoll : bool;
  rxSamplesInPacket : N;     (* uint16_t *)
  rxPacketsInBatch : N;      (* uint32_t *)
  txMaxPacketsInBatch : N;   (* uint32_t *)
  txSamplesInPacket : N      (* uint16_t *)
}.

Record layout : Type := mk_layout {
  sizeof : nat;
  off_usePoll : nat;
  off_rxSamplesInPacket : nat;
  off_rxPacketsInBatch : nat;
  off_txMaxPacketsInBatch : nat;
  off_txSamplesInPacket : nat
}.

(** [usePoll] lies inside the object and no other field shares its byte;
    the other fields lie inside the object too. *)
Definition layout_ok (L : layout) : Prop :=
  (off_usePoll L + 1 <= sizeof L /\
   off_rxSamplesInPacket L + 2 <= sizeof L /\
   off_rxPacketsInBatch L + 4 <= sizeof L /\
   off_txMaxPacketsInBatch L + 4 <= sizeof L /\
   off_txSamplesInPacket L + 2 <= sizeof L /\
   (off_usePoll L < off_rxSamplesInPacket L \/ off_rxSamplesInPacket L + 2 <= off_usePoll L) /\
   (off_usePoll L < off_rxPacketsInBatch L \/ off_rxPacketsInBatch L + 4 <= off_usePoll L) /\
   (off_usePoll L < off_txMaxPacketsInBatch L \/ off_txMaxPacketsInBatch L + 4 <= off_usePoll L) /\
   (off_usePoll L < off_txSamplesInPacket L \/ off_txSamplesInPacket L + 2 <= off_usePoll L))%nat.

Definition load (L : layout) (mem : list byte) : t :=
  {| usePoll := load_bool mem (off_usePoll L);
     rxSamplesInPacket := load_u16 mem (off_rxSamplesInPacket L);
     rxPacketsInBatch := load_u32 mem (off_rxPacketsInBatch L);
     txMaxPacketsInBatch := load_u32 mem (off_txMaxPacketsInBatch L);
     txSamplesInPacket := load_u16 mem (off_txSamplesInPacket L) |}.

(** [Extras() { memset(this, 0, sizeof(Extras)); usePoll = true; }] *)
Definition ctor_mem (L : layout) (raw : list byte) : list byte :=
  store_byte (memset raw x00 (sizeof L)) (off_usePoll L) x01.

Definition ctor (L : layout) (raw : list byte) : t := load L (ctor_mem L raw).

Definition lp64 : layout :=
  {| sizeof := 16; off_usePoll := 0; off_rxSamplesInPacket := 2;
     off_rxPacketsInBatch := 4; off_txMaxPacketsInBatch := 8;
     off_txSamplesInPacket := 12 |}.

End Extras.

Module StreamConfig.

Record t : Type := mk {
  rxCount : N;                 (* uint8_t *)
  rxChannels : list N;         (* uint8_t [MAX_CHANNEL_COUNT] *)
  txCount : N;                 (* uint8_t *)
  txChannels : list N;         (* uint8_t [MAX_CHANNEL_COUNT] *)
  format : N;                  (* DataFormat, as the integer it holds *)
  linkFormat : N;              (* DataFormat, as the integer it holds *)
  bufferSize : N;              (* uint32_t *)
  hintSampleRate : spec_float; (* float *)
  alignPhase : bool;
  statusCallback : pointer;    (* StatusCallbackFunc *)
  userData : pointer;          (* void* *)
  extraConfig : pointer        (* Extras* *)
}.

Record layout : Type := mk_layout {
  sizeof : nat;
  ptr_size : nat;
  enum_size : nat;
  off_rxCount : nat;
  off_rxChannels : nat;
  off_txCount : nat;
  off_txChannels : nat;
  off_format : nat;
  off_linkFormat : nat;
  off_bufferSize : nat;
  off_hintSampleRate : nat;
  off_alignPhase : nat;
  off_statusCallback : nat;
  off_userData : nat;
  off_extraConfig : nat
}.

Definition layout_ok (L : layout) : Prop :=
  (off_rxCount L + 1 <= sizeof L /\
   off_rxChannels L + N.to_nat MAX_CHANNEL_COUNT <= sizeof L /\
   off_txCount L + 1 <= sizeof L /\
   off_txChannels L + N.to_nat MAX_CHANNEL_COUNT <= sizeof L /\
   off_format L + enum_size L <= sizeof L /\
   off_linkFormat L + enum_size L <= sizeof L /\
   off_bufferSize L + 4 <= sizeof L /\
   off_hintSampleRate L + 4 <= sizeof L /\
   off_alignPhase L + 1 <= sizeof L /\
   off_statusCallback L + ptr_size L <= sizeof L /\
   off_userData L + ptr_size L <= sizeof L /\
   off_extraConfig L + ptr_size L <= sizeof L)%nat.

Definition load (L : layout) (mem : list byte) : t :=
  {| rxCount := load_u8 mem (off_rxCount L);
     rxChannels := load_u8_array mem (off_rxChannels L) (N.to_nat MAX_CHANNEL_COUNT);
     txCount := load_u8 mem (off_txCount L);
     txChannels := load_u8_array mem (off_txChannels L) (N.to_nat MAX_CHANNEL_COUNT);
     format := le_unsigned (field_bytes mem (off_format L) (enum_size L));
     linkFormat := le_unsigned (field_bytes mem (off_linkFormat L) (enum_size L));
     bufferSize := load_u32 mem (off_bufferSize L);
     hintSampleRate := load_float mem (off_hintSampleRate L);
     alignPhase := load_bool mem (off_alignPhase L);
     statusCallback := load_ptr (ptr_size L) mem (off_statusCallback L);
     userData := load_ptr (ptr_size L) mem (off_userData L);
     extraConfig := load_ptr (ptr_size L) mem (off_extraConfig L) |}.

(** [StreamConfig() { memset(this, 0, sizeof(StreamConfig)); }] *)
Definition ctor_mem (L : layout) (raw : list byte) : list byte :=
  memset raw x00 (sizeof L).

Definition ctor (L : layout) (raw : list byte) : t := load L (ctor_mem L raw).

Definition lp64 : layout :=
  {| sizeof := 80; ptr_size := 8; enum_size := 4;
     off_rxCount := 0; off_rxChannels := 1; off_txCount := 17; off_txChannels := 18;
     off_format := 36; off_linkFormat := 40; off_bufferSize := 44;
     off_hintSampleRate := 48; off_alignPhase := 52;
     off_statusCallback := 56; off_userData := 64; off_extraConfig := 72 |}.

End StreamConfig.

(** ** [struct StreamMeta] *)

Module StreamMeta.
Record t : Type := mk {
  timestamp : Z;        (* int64_t *)
  useTimestamp : bool;
  flush : bool
}.
End StreamMeta.

(** ** Default bodies of the optional operations

    The device object is whatever state a concrete device carries; the
    base class bodies are [{ return -1; }].  An operation returns its
    [int] result, the device after the call and, for the operations that
    receive a writable buffer, that buffer after the call. *)

Section BaseClass.

Variable Device : Type.

Definition GPIOWrite (self : Device) (buffer : list byte) (bufLength : N)
  : Z * Device := (-1, self).

Definition GPIORead (self : Device) (buffer : list byte) (bufLength : N)
  : Z * Device * list byte := (-1, self, buffer).

Definition GPIODirWrite (self : Device) (buffer : list byte) (bufLength : N)
  : Z * Device := (-1, self).

Definition GPIODirRead (self : Device) (buffer : list byte) (bufLength : N)
  : Z * Device * list byte := (-1, self, buffer).

Definition CustomParameterWrite (self : Device) (ids : list N)
    (values : list spec_float) (count : N) (units : string)
  : Z * Device := (-1, self).

Definition CustomParameterRead (self : Device) (ids : list N)
    (values : list spec_float) (count : N) (units : option string)
  : Z * Device * list spec_float * option string := (-1, self, values, units).

End BaseClass.

(** ** More of the header: enumerations

    [LogLevel] gives its first enumerator the value 0 and lets the others
    follow; [ClockID] spells every value out. *)

Inductive LogLevel : Type := CRITICAL | ERROR | WARNING | INFO | VERBOSE | DEBUG.

Definition LogLevel_to_N (l : LogLevel) : N :=
  match l with
  | CRITICAL => 0 | ERROR => 1 | WARNING => 2 | INFO => 3 | VERBOSE => 4 | DEBUG => 5
  end%N.

Definition LogLevel_of_N (v : N) : option LogLevel :=
  match v with
  | 0%N => Some CRITICAL
  | 1%N => Some ERROR
  | 2%N => Some WARNING
  | 3%N => Some INFO
  | 4%N => Some VERBOSE
  | 5%N => Some DEBUG
  | _ => None
  end.

Inductive ClockID : Type :=
  CLK_REFERENCE | CLK_SXR | CLK_SXT | CLK_CGEN | CLK_RXTSP | CLK_TXTSP.

Definition ClockID_to_N (c : ClockID) : N :=
  match c with
  | CLK_REFERENCE => 0 | CLK_SXR => 1 | CLK_SXT => 2
  | CLK_CGEN => 3 | CLK_RXTSP => 4 | CLK_TXTSP => 5
  end%N.

Definition ClockID_of_N (v : N) : option ClockID :=
  match v with
  | 0%N => Some CLK_REFERENCE
  | 1%N => Some CLK_SXR
  | 2%N => Some CLK_SXT
  | 3%N => Some CLK_CGEN
  | 4%N => Some CLK_RXTSP
  | 5%N => Some CLK_TXTSP
  | _ => None
  end.

(** The clock operations take the id as [uint8_t clk_id]. *)
Definition to_uint8 (v : N) : N := (v mod 256)%N.

(** ** More of the header: [double] fields and writes inside an object *)

(** IEEE 754 binary64, the C++ [double]. *)
Definition decode_binary64 (bits : N) : spec_float :=
  let sign := N.testbit bits 63 in
  let e := ((bits / 2 ^ 52) mod 2 ^ 11)%N in
  let m := (bits mod 2 ^ 52)%N in
  if (e =? 0)%N then
    match m with
    | N0 => S754_zero sign
    | Npos p => S754_finite sign p (-1074)
    end
  else if (e =? 2047)%N then
    match m with
    | N0 => S754_infinity sign
    | Npos _ => S754_nan
    end
  else
    match (m + 2 ^ 52)%N with
    | N0 => S754_nan
    | Npos p => S754_finite sign p (Z.of_N e - 1075)
    end.

(** The bit pattern of a [double] given by its canonical mantissa and
    exponent (mantissa below 2^53; below 2^52 only with exponent -1074). *)
Definition encode_binary64 (x : spec_float) : N :=
  let sign_bit (s : bool) : N := (if s then 2 ^ 63 else 0)%N in
  match x with
  | S754_zero s => sign_bit s
  | S754_infinity s => sign_bit s + 2047 * 2 ^ 52
  | S754_nan => 2047 * 2 ^ 52 + 2 ^ 51
  | S754_finite s m e =>
      if (N.pos m <? 2 ^ 52) then sign_bit s + N.pos m
      else sign_bit s + Z.to_N (e + 1075) * 2 ^ 52 + (N.pos m - 2 ^ 52)
  end%N.

Definition load_double (mem : list byte) (off : nat) : spec_float :=
  decode_binary64 (load_u64 mem off).

Definition byte_of_N (v : N) : byte :=
  match Byte.of_N (v mod 256) with
  | Some b => b
  | None => x00
  end.

(** The [size] little-endian bytes of [v]. *)
Fixpoint le_bytes (size : nat) (v : N) : list byte :=
  match size with
  | O => []
  | S k => byte_of_N v :: le_bytes k (v / 256)
  end.

(** Overwrite the bytes from [off] on with [bs]. *)
Definition store_bytes (mem : list byte) (off : nat) (bs : list byte) : list byte :=
  take off mem ++ bs ++ drop (off + length bs) mem.

Definition store_double (mem : list byte) (off : nat) (x : spec_float) : list byte :=
  store_bytes mem off (le_bytes 8 (encode_binary64 x)).

(** [memset(p + off, c, n)] for an object that lives inside [mem]. *)
Definition memset_at (mem : list byte) (off : nat) (c : byte) (n : nat) : list byte :=
  store_bytes mem off (replicate n c).

(** All [n] bytes from [off] on are there and are zero. *)
Definition zero_on (mem : list byte) (off n : nat) : Prop :=
  forall i, (off <= i < off + n)%nat -> mem !! i = Some x00.

(** ** [struct GFIRFilter] *)

Module GFIRFilter.

Record t : Type := mk {
  bandwidth : spec_float;   (* double *)
  enabled : bool
}.

Record layout : Type := mk_layout {
  sizeof : nat;
  off_bandwidth : nat;
  off_enabled : nat
}.

Definition layout_ok (L : layout) : Prop :=
  (off_bandwidth L + 8 <= sizeof L /\ off_enabled L + 1 <= sizeof L)%nat.

(** The typed view of the object that starts at [base]. *)
Definition load (L : layout) (mem : list byte) (base : nat) : t :=
  {| bandwidth := load_double mem (base + off_bandwidth L);
     enabled := load_bool mem (base + off_enabled L) |}.

Definition zero : t := mk (S754_zero false) false.

Definition lp64 : layout :=
  {| sizeof := 16; off_bandwidth := 0; off_enabled := 8 |}.

End GFIRFilter.

(** ** [struct ChannelConfig] *)

Module ChannelConfig.

Record t : Type := mk {
  rxCenterFrequency : spec_float;   (* double *)
  txCenterFrequency : spec_float;
  rxNCOoffset : spec_float;
  txNCOoffset : spec_float;
  rxSampleRate : spec_float;
  txSampleRate : spec_float;
  rxGain : spec_float;
  txGain : spec_float;
  rxPath : N;                       (* uint8_t *)
  txPath : N;
  rxLPF : spec_float;               (* double *)
  txLPF : spec_float;
  rxOversample : N;                 (* uint8_t *)
  txOversample : N;
  rxGFIR : GFIRFilter.t;
  txGFIR : GFIRFilter.t;
  rxEnabled : bool;
  txEnabled : bool;
  rxCalibrate : bool;
  txCalibrate : bool;
  rxTestSignal : bool;
  txTestSignal : bool
}.

Record layout : Type := mk_layout {
  sizeof : nat;
  gfir : GFIRFilter.layout;
  off_rxCenterFrequency : nat;
  off_txCenterFrequency : nat;
  off_rxNCOoffset : nat;
  off_txNCOoffset : nat;
  off_rxSampleRate : nat;
  off_txSampleRate : nat;
  off_rxGain : nat;
  off_txGain : nat;
  off_rxPath : nat;
  off_txPath : nat;
  off_rxLPF : nat;
  off_txLPF : nat;
  off_rxOversample : nat;
  off_txOversample : nat;
  off_rxGFIR : nat;
  off_txGFIR : nat;
  off_rxEnabled : nat;
  off_txEnabled : nat;
  off_rxCalibrate : nat;
  off_txCalibrate : nat;
  off_rxTestSignal : nat;
  off_txTestSignal : nat
}.

(** Every field lies inside the object, the two filters with all of
    theirs. *)
Definition layout_ok (L : layout) : Prop :=
  GFIRFilter.layout_ok (gfir L)
  /\ (off_rxCenterFrequency L + 8 <= sizeof L /\
      off_txCenterFrequency L + 8 <= sizeof L /\
      off_rxNCOoffset L + 8 <= sizeof L /\
      off_txNCOoffset L + 8 <= sizeof L /\
      off_rxSampleRate L + 8 <= sizeof L /\
      off_txSampleRate L + 8 <= sizeof L /\
      off_rxGain L + 8 <= sizeof L /\
      off_txGain L + 8 <= sizeof L /\
      off_rxPath L + 1 <= sizeof L /\
      off_txPath L + 1 <= sizeof L /\
      off_rxLPF L + 8 <= sizeof L /\
      off_txLPF L + 8 <= sizeof L /\
      off_rxOversample L + 1 <= sizeof L /\
      off_txOversample L + 1 <= sizeof L /\
      off_rxGFIR L + GFIRFilter.sizeof (gfir L) <= sizeof L /\
      off_txGFIR L + GFIRFilter.sizeof (gfir L) <= sizeof L /\
      off_rxEnabled L + 1 <= sizeof L /\
      off_txEnabled L + 1 <= sizeof L /\
      off_rxCalibrate L + 1 <= sizeof L /\
      off_txCalibrate L + 1 <= sizeof L /\
      off_rxTestSignal L + 1 <= sizeof L /\
      off_txTestSignal L + 1 <= sizeof L)%nat.

(** The typed view of the object that starts at [base]. *)
Definition load (L : layout) (mem : list byte) (base : nat) : t :=
  {| rxCenterFrequency := load_double mem (base + off_rxCenterFrequency L);
     txCenterFrequency := load_double mem (base + off_txCenterFrequency L);
     rxNCOoffset := load_double mem (base + off_rxNCOoffset L);
     txNCOoffset := load_double mem (base + off_txNCOoffset L);
     rxSampleRate := load_double mem (base + off_rxSampleRate L);
     txSampleRate := load_double mem (base + off_txSampleRate L);
     rxGain := load_double mem (base + off_rxGain L);
     txGain := load_double mem (base + off_txGain L);
     rxPath := load_u8 mem (base + off_rxPath L);
     txPath := load_u8 mem (base + off_txPath L);
     rxLPF := load_double mem (base + off_rxLPF L);
     txLPF := load_double mem (base + off_txLPF L);
     rxOversample := load_u8 mem (base + off_rxOversample L);
     txOversample := load_u8 mem (base + off_txOversample L);
     rxGFIR := GFIRFilter.load (gfir L) mem (base + off_rxGFIR L);
     txGFIR := GFIRFilter.load (gfir L) mem (base + off_txGFIR L);
     rxEnabled := load_bool mem (base + off_rxEnabled L);
     txEnabled := load_bool mem (base + off_txEnabled L);
     rxCalibrate := load_bool mem (base + off_rxCalibrate L);
     txCalibrate := load_bool mem (base + off_txCalibrate L);
     rxTestSignal := load_bool mem (base + off_rxTestSignal L);
     txTestSignal := load_bool mem (base + off_txTestSignal L) |}.

(** [ChannelConfig() { memset(this, 0, sizeof(ChannelConfig)); }] for the
    object that starts at [base] inside [mem]. *)
Definition ctor_at (L : layout) (mem : list byte) (base : nat) : list byte :=
  memset_at mem base x00 (sizeof L).

(** The same constructor on storage of its own. *)
Definition ctor (L : layout) (raw : list byte) : t := load L (ctor_at L raw 0) 0.

Definition zero : t :=
  let z := S754_zero false in
  mk z z z z z z z z 0 0 z z 0 0 GFIRFilter.zero GFIRFilter.zero
     false false false false false false.

Definition lp64 : layout :=
  {| sizeof := 136; gfir := GFIRFilter.lp64;
     off_rxCenterFrequency := 0; off_txCenterFrequency := 8;
     off_rxNCOoffset := 16; off_txNCOoffset := 24;
     off_rxSampleRate := 32; off_txSampleRate := 40;
     off_rxGain := 48; off_txGain := 56;
     off_rxPath := 64; off_txPath := 65;
     off_rxLPF := 72; off_txLPF := 80;
     off_rxOversample := 88; off_txOversample := 89;
     off_rxGFIR := 96; off_txGFIR := 112;
     off_rxEnabled := 128; off_txEnabled := 129;
     off_rxCalibrate := 130; off_txCalibrate := 131;
     off_rxTestSignal := 132; off_txTestSignal := 133 |}.

End ChannelConfig.

(** ** [struct SDRConfig] *)

Module SDRConfig.

Record t : Type := mk {
  referenceClockFreq : spec_float;    (* double *)
  channel : list ChannelConfig.t;     (* ChannelConfig [MAX_CHANNEL_COUNT] *)
  skipDefaults : bool
}.

Record layout : Type := mk_layout {
  sizeof : nat;
  element : ChannelConfig.layout;
  off_referenceClockFreq : nat;
  off_channel : nat;
  off_skipDefaults : nat
}.

(** Where element [i] of [channel] starts. *)
Definition off_element (L : layout) (i : nat) : nat :=
  off_channel L + i * ChannelConfig.sizeof (element L).

Definition layout_ok (L : layout) : Prop :=
  ChannelConfig.layout_ok (element L)
  /\ (off_referenceClockFreq L + 8 <= sizeof L
      /\ off_element L (N.to_nat MAX_CHANNEL_COUNT) <= sizeof L
      /\ off_skipDefaults L + 1 <= sizeof L)%nat.

Definition load (L : layout) (mem : list byte) : t :=
  {| referenceClockFreq := load_double mem (off_referenceClockFreq L);
     channel := map (fun i => ChannelConfig.load (element L) mem (off_element L i))
                  (seq 0 (N.to_nat MAX_CHANNEL_COUNT));
     skipDefaults := load_bool mem (off_skipDefaults L) |}.

(** Default-construct the elements [i], [i+1], ... of [channel], [n] of
    them. *)
Fixpoint construct_channels (L : layout) (mem : list byte) (i n : nat) : list byte :=
  match n with
  | O => mem
  | S n' => construct_channels L (ChannelConfig.ctor_at (element L) mem (off_element L i))
              (S i) n'
  end.

(** [SDRConfig() : referenceClockFreq(0), skipDefaults(false) {}]
    The members are initialised in the order of their declaration:
    [referenceClockFreq] from 0, every element of [channel] by its own
    constructor, then [skipDefaults]. *)
Definition ctor_mem (L : layout) (raw : list byte) : list byte :=
  let m1 := store_double raw (off_referenceClockFreq L) (S754_zero false) in
  let m2 := construct_channels L m1 0 (N.to_nat MAX_CHANNEL_COUNT) in
  store_byte m2 (off_skipDefaults L) x00.

Definition ctor (L : layout) (raw : list byte) : t := load L (ctor_mem L raw).

(** The bytes of the object the constructor writes: the two scalar members
    and the array. *)
Definition written (L : layout) (i : nat) : Prop :=
  (off_referenceClockFreq L <= i < off_referenceClockFreq L + 8
   \/ off_channel L <= i < off_element L (N.to_nat MAX_CHANNEL_COUNT)
   \/ i = off_skipDefaults L)%nat.

Definition lp64 : layout :=
  {| sizeof := 2192; element := ChannelConfig.lp64;
     off_referenceClockFreq := 0; off_channel := 8; off_skipDefaults := 2184 |}.

End SDRConfig.

(** ** The remaining default bodies of the class *)

Section BaseClassRest.

Variable Device : Type.

(** [virtual void SetDataLogCallback(DataCallbackType callback) {};] *)
Definition SetDataLogCallback (self : Device) (callback : pointer) : Device := self.

(** [virtual void SetMessageLogCallback(LogCallbackType callback) {};] *)
Definition SetMessageLogCallback (self : Device) (callback : pointer) : Device := self.

(** [virtual void *GetInternalChip(uint32_t index) { return nullptr; };] *)
Definition GetInternalChip (self : Device) (index : N) : pointer * Device :=
  (nullptr, self).

(** A call of one of the operations the class gives a body to. *)
Inductive OptionalCall : Type :=
  | CallGPIOWrite (buffer : list byte) (bufLength : N)
  | CallGPIORead (buffer : list byte) (bufLength : N)
  | CallGPIODirWrite (buffer : list byte) (bufLength : N)
  | CallGPIODirRead (buffer : list byte) (bufLength : N)
  | CallCustomParameterWrite (ids : list N) (values : list spec_float)
      (count : N) (units : string)
  | CallCustomParameterRead (ids : list N) (values : list spec_float)
      (count : N) (units : option string)
  | CallSetDataLogCallback (callback : pointer)
  | CallSetMessageLogCallback (callback : pointer)
  | CallGetInternalChip (index : N).

Inductive OptionalReturn : Type :=
  | RetInt (r : Z)
  | RetVoid
  | RetChip (p : pointer).

Definition invoke (self : Device) (call : OptionalCall) : OptionalReturn * Device :=
  match call with
  | CallGPIOWrite b n => let r := GPIOWrite Device self b n in (RetInt (fst r), snd r)
  | CallGPIORead b n =>
      let r := GPIORead Device self b n in (RetInt (fst (fst r)), snd (fst r))
  | CallGPIODirWrite b n => let r := GPIODirWrite Device self b n in (RetInt (fst r), snd r)
  | CallGPIODirRead b n =>
      let r := GPIODirRead Device self b n in (RetInt (fst (fst r)), snd (fst r))
  | CallCustomParameterWrite ids vs n u =>
      let r := CustomParameterWrite Device self ids vs n u in (RetInt (fst r), snd r)
  | CallCustomParameterRead ids vs n u =>
      let r := CustomParameterRead Device self ids vs n u in
      (RetInt (fst (fst (fst r))), snd (fst (fst r)))
  | CallSetDataLogCallback cb => (RetVoid, SetDataLogCallback self cb)
  | CallSetMessageLogCallback cb => (RetVoid, SetMessageLogCallback self cb)
  | CallGetInternalChip i => let r := GetInternalChip self i in (RetChip (fst r), snd r)
  end.

(** The calls one after the other on the same device object. *)
Fixpoint invoke_all (self : Device) (calls : list OptionalCall)
  : list OptionalReturn * Device :=
  match calls with
  | [] => ([], self)
  | call :: calls' =>
      let r := invoke self call in
      let rs := invoke_all (snd r) calls' in
      (fst r :: fst rs, snd rs)
  end.

End BaseClassRest.

(** What a caller may take for success: a non-negative [int], or a chip
    that is there. *)
Definition reports_success (r : OptionalReturn) : bool :=
  match r with
  | RetInt v => 0 <=? v
  | RetVoid => false
  | RetChip p => negb (p =? nullptr)%N
  end.

(** * The streaming core

    The bodies of [StreamSetup], [StreamStart], [StreamStop], [StreamRx],
    [StreamTx] and [StreamStatus] are not in the header.  What follows is
    the Stream Controller of the design document: its lifecycle, the
    per-channel buffers, the Timestamp Scheduler's lateness check and the
    Stats Collector's counters, as one sequential state machine.  Calls of
    the host and actions of the hardware side are events; concurrency is
    their interleaving.

    Left out: the payload format conversion (samples are opaque words), the
    throughput gauges (they need wall-clock time), batching of TX packets,
    and transport failure. *)

(** Modelled from the spec: the constants the design document leaves to
    the implementation (tolerance window, internal default buffer size),
    and what the device description supplies. *)
Record Params : Type := mkParams {
  tolerance : Z;                    (* TX lateness tolerance, in ticks *)
  defaultBufferSize : N;            (* buffer capacity used when the hint is 0 *)
  linkSampleBytes : DataFormat -> Z;(* size of one sample on the link *)
  moduleChannels : N                (* channel count of the RF module *)
}.


(** Modelled from the spec: the states of the Stream Controller
    (section 4.1). *)
Inductive Lifecycle : Type := Idle | Configured | Running | Stopped.

(** Modelled from the spec: the results named in sections 4.1, 6 and 7. *)
Inductive Result : Type :=
  | Success
  | SoftWarning
  | InvalidConfig
  | AlreadyConfigured
  | NotConfigured
  | NotRunning
  | Late.

(** A sample on the link; its content plays no role below. *)
Definition Sample : Type := Z.

(** Modelled from the spec: the timestamp-tagged sample blocks a channel
    queue holds (sections 2 and 4.2). *)
Record RxBlock : Type := mkRxBlock {
  rbTime : Z;                (* timestamp of the first sample *)
  rbSamples : list Sample
}.

Record TxBlock : Type := mkTxBlock {
  tbCall : nat;              (* sequence number of the StreamTx call *)
  tbDue : option Z;          (* release time, when the timestamp is authoritative *)
  tbFlush : bool;
  tbSamples : list Sample
}.

(** Modelled from the spec: ChannelStats of the data model (section 3),
    without the two throughput gauges.  Counters are the cumulative
    counts the document describes; [FIFO_filled] is the exact fraction. *)
Module ChannelStats.
Record t : Type := mk {
  timestamp : Z;
  bytesTransferred : Z;
  packets : Z;
  FIFO_filled : Q;
  overrun : N;
  underrun : N;
  loss : N;
  late : N;
  isTx : bool
}.

Definition fresh (tx : bool) : t :=
  {| timestamp := 0; bytesTransferred := 0; packets := 0; FIFO_filled := 0%Q;
     overrun := 0; underrun := 0; loss := 0; late := 0; isTx := tx |}.

Definition with_timestamp (v : Z) (s : t) : t :=
  mk v (bytesTransferred s) (packets s) (FIFO_filled s) (overrun s)
     (underrun s) (loss s) (late s) (isTx s).

Definition with_FIFO_filled (v : Q) (s : t) : t :=
  mk (timestamp s) (bytesTransferred s) (packets s) v (overrun s)
     (underrun s) (loss s) (late s) (isTx s).

(** One more packet of [bytes] bytes went through. *)
Definition count_transfer (bytes : Z) (s : t) : t :=
  mk (timestamp s) (bytesTransferred s + bytes) (packets s + 1) (FIFO_filled s)
     (overrun s) (underrun s) (loss s) (late s) (isTx s).

Definition add_overrun (n : N) (s : t) : t :=
  mk (timestamp s) (bytesTransferred s) (packets s) (FIFO_filled s)
     (overrun s + n) (underrun s) (loss s) (late s) (isTx s).

Definition add_underrun (n : N) (s : t) : t :=
  mk (timestamp s) (bytesTransferred s) (packets s) (FIFO_filled s)
     (overrun s) (underrun s + n) (loss s) (late s) (isTx s).

Definition add_loss (n : N) (s : t) : t :=
  mk (timestamp s) (bytesTransferred s) (packets s) (FIFO_filled s)
     (overrun s) (underrun s) (loss s + n) (late s) (isTx s).

Definition add_late (n : N) (s : t) : t :=
  mk (timestamp s) (bytesTransferred s) (packets s) (FIFO_filled s)
     (overrun s) (underrun s) (loss s) (late s + n) (isTx s).
End ChannelStats.

(** Modelled from the spec: FIFO_filled is queue occupancy over capacity
    (section 4.4); kept in lowest terms. *)
Definition fill_fraction (occupancy : nat) (capacity : N) : Q :=
  Qred (Z.of_nat occupancy # Z.to_pos (Z.of_N capacity)).

(** Modelled from the spec: the Per-Channel Buffer, a bounded queue with
    the channel's stats (sections 2, 3 and 4.2). *)
Record RxBuffer : Type := mkRxBuffer {
  rxQueue : list RxBlock;
  rxCapacity : N;            (* in blocks *)
  rxExpected : option Z;     (* timestamp the next packet should carry *)
  rxStats : ChannelStats.t
}.

Record TxBuffer : Type := mkTxBuffer {
  txQueue : list TxBlock;
  txCapacity : N;            (* in blocks *)
  txSent : list TxBlock;     (* what the hardware side has taken, oldest first *)
  txStats : ChannelStats.t
}.

(** Modelled from the spec: the Stream Controller owns the lifecycle, the
    frozen descriptor, the scheduler's clock and every channel buffer
    (sections 2 and 3). *)
Record Controller : Type := mkController {
  lifecycle : Lifecycle;
  armed : bool;                          (* Timestamp Scheduler armed *)
  descriptor : option StreamConfig.t;    (* frozen at setup *)
  hwTime : Z;                            (* hardware-reported current time *)
  rx : gmap N RxBuffer;
  tx : gmap N TxBuffer;
  nextCall : nat                         (* StreamTx calls served so far *)
}.

Definition initial (t0 : Z) : Controller :=
  {| lifecycle := Idle; armed := false; descriptor := None; hwTime := t0;
     rx := ∅; tx := ∅; nextCall := 0 |}.

Definition with_rx (m : gmap N RxBuffer) (c : Controller) : Controller :=
  mkController (lifecycle c) (armed c) (descriptor c) (hwTime c) m (tx c) (nextCall c).

Definition with_tx (m : gmap N TxBuffer) (c : Controller) : Controller :=
  mkController (lifecycle c) (armed c) (descriptor c) (hwTime c) (rx c) m (nextCall c).

Definition with_nextCall (n : nat) (c : Controller) : Controller :=
  mkController (lifecycle c) (armed c) (descriptor c) (hwTime c) (rx c) (tx c) n.

Definition with_hwTime (t : Z) (c : Controller) : Controller :=
  mkController (lifecycle c) (armed c) (descriptor c) t (rx c) (tx c) (nextCall c).

(** ** Setup *)

(** The channels a descriptor declares: the first [count] array entries. *)
Definition declared (count : N) (channels : list N) : list N :=
  take (N.to_nat count) channels.

Fixpoint has_duplicate (l : list N) : bool :=
  match l with
  | [] => false
  | x :: l' => existsb (N.eqb x) l' || has_duplicate l'
  end.

Definition channel_in_range (P : Params) (ch : N) : bool :=
  (ch <? MAX_CHANNEL_COUNT)%N && (ch <? moduleChannels P)%N.

Definition channels_valid (P : Params) (count : N) (channels : list N) : bool :=
  (count <=? MAX_CHANNEL_COUNT)%N
  && forallb (channel_in_range P) (declared count channels)
  && negb (has_duplicate (declared count channels)).

Definition format_valid (v : N) : bool :=
  match DataFormat_of_N v with Some _ => true | None => false end.

(** Modelled from the spec: the descriptor invariants checked by Setup
    (sections 3 and 4.1); the validation code is not in the header. *)
Definition validate (P : Params) (cfg : StreamConfig.t) : bool :=
  channels_valid P (StreamConfig.rxCount cfg) (StreamConfig.rxChannels cfg)
  && channels_valid P (StreamConfig.txCount cfg) (StreamConfig.txChannels cfg)
  && format_valid (StreamConfig.format cfg)
  && format_valid (StreamConfig.linkFormat cfg).

(** Modelled from the spec: a buffer is sized from the hint, or from the
    internal default when the hint is 0 (section 4.1). *)
Definition buffer_capacity (P : Params) (cfg : StreamConfig.t) : N :=
  if (StreamConfig.bufferSize cfg =? 0)%N then defaultBufferSize P
  else StreamConfig.bufferSize cfg.

Definition new_rx_buffer (cap : N) : RxBuffer :=
  {| rxQueue := []; rxCapacity := cap; rxExpected := None;
     rxStats := ChannelStats.fresh false |}.

Definition new_tx_buffer (cap : N) : TxBuffer :=
  {| txQueue := []; txCapacity := cap; txSent := [];
     txStats := ChannelStats.fresh true |}.

(** Modelled from the spec: one buffer per declared channel (section 4.1). *)
Definition allocate {B : Type} (mk : B) (channels : list N) : gmap N B :=
  list_to_map ((fun ch => (ch, mk)) <$> channels).

(** Modelled from the spec: Setup of the Stream Controller (sections 4.1,
    6 and 7); [StreamSetup] is pure virtual in the header.  A malformed
    descriptor is rejected before anything is allocated; a well-formed one
    is accepted from Idle or Stopped only. *)
Definition Setup (P : Params) (cfg : StreamConfig.t) (c : Controller)
  : Result * Controller :=
  if negb (validate P cfg) then (InvalidConfig, c)
  else
    match lifecycle c with
    | Idle | Stopped =>
        let cap := buffer_capacity P cfg in
        (Success,
         {| lifecycle := Configured;
            armed := false;
            descriptor := Some cfg;
            hwTime := hwTime c;
            rx := allocate (new_rx_buffer cap)
                    (declared (StreamConfig.rxCount cfg) (StreamConfig.rxChannels cfg));
            tx := allocate (new_tx_buffer cap)
                    (declared (StreamConfig.txCount cfg) (StreamConfig.txChannels cfg));
            nextCall := nextCall c |})
    | Configured | Running => (AlreadyConfigured, c)
    end.

(** ** Start and Stop *)

(** Modelled from the spec: Start of the Stream Controller (section 4.1);
    [StreamStart] is pure virtual in the header. *)
Definition Start (c : Controller) : Result * Controller :=
  match lifecycle c with
  | Configured =>
      (Success,
       mkController Running true (descriptor c) (hwTime c) (rx c) (tx c) (nextCall c))
  | Running => (SoftWarning, c)
  | Idle | Stopped => (NotConfigured, c)
  end.

Definition drain_rx (b : RxBuffer) : RxBuffer :=
  mkRxBuffer [] (rxCapacity b) (rxExpected b)
    (ChannelStats.with_FIFO_filled (fill_fraction 0 (rxCapacity b)) (rxStats b)).

Definition drain_tx (b : TxBuffer) : TxBuffer :=
  mkTxBuffer [] (txCapacity b) (txSent b)
    (ChannelStats.with_FIFO_filled (fill_fraction 0 (txCapacity b)) (txStats b)).

(** Modelled from the spec: Stop of the Stream Controller (sections 4.1
    and 7); [StreamStop] is pure virtual in the header.  Queued blocks are
    discarded and the scheduler is disarmed. *)
Definition Stop (c : Controller) : Result * Controller :=
  match lifecycle c with
  | Configured | Running =>
      (Success,
       mkController Stopped false (descriptor c) (hwTime c)
         (drain_rx <$> rx c) (drain_tx <$> tx c) (nextCall c))
  | Stopped => (Success, c)
  | Idle => (NotConfigured, c)
  end.

(** ** The device: one Controller per RF module *)

Definition Device : Type := N -> Controller.

Definition on_module {R : Type} (op : Controller -> R * Controller)
    (dev : Device) (moduleIndex : N) : R * Device :=
  let r := op (dev moduleIndex) in
  (fst r, fun i => if (i =? moduleIndex)%N then snd r else dev i).

Definition StreamSetup (P : Params) (dev : Device) (config : StreamConfig.t)
    (moduleIndex : N) : Result * Device :=
  on_module (Setup P config) dev moduleIndex.

Definition StreamStart (dev : Device) (moduleIndex : N) : Result * Device :=
  on_module Start dev moduleIndex.

Definition StreamStop (dev : Device) (moduleIndex : N) : Result * Device :=
  on_module Stop dev moduleIndex.

(** ** Receive *)

Record RxOutcome : Type := mkRxOutcome {
  rx_ret : Z;                    (* samples transferred, or negative *)
  rx_samples : list Sample;      (* what was copied to the destination *)
  rx_meta : StreamMeta.t         (* the caller's meta after the call *)
}.

(** The samples of a block, each with its own timestamp. *)
Fixpoint stamp (t : Z) (l : list Sample) : list (Z * Sample) :=
  match l with
  | [] => []
  | s :: l' => (t, s) :: stamp (t + 1) l'
  end.

(** Modelled from the spec: copy up to [n] samples out of the queue
    (section 4.2), oldest first.  A block that is
    only partly taken stays at the head with its timestamp advanced. *)
Fixpoint take_samples (n : nat) (q : list RxBlock)
  : list (Z * Sample) * list RxBlock :=
  match q with
  | [] => ([], [])
  | b :: q' =>
      let k := length (rbSamples b) in
      if (n <? k)%nat then
        (stamp (rbTime b) (take n (rbSamples b)),
         mkRxBlock (rbTime b + Z.of_nat n) (drop n (rbSamples b)) :: q')
      else
        let r := take_samples (n - k) q' in
        (stamp (rbTime b) (rbSamples b) ++ fst r, snd r)
  end.

(** Modelled from the spec: has the buffer's head timestamp reached the
    requested value (section 4.2)? *)
Definition head_reached (requested : Z) (q : list RxBlock) : bool :=
  match q with
  | [] => false
  | b :: _ => requested <=? rbTime b
  end.

(** Modelled from the spec: [meta.timestamp] is stamped with the timestamp
    of the first returned sample (section 4.2). *)
Definition stamp_meta (out : list (Z * Sample)) (meta : StreamMeta.t) : StreamMeta.t :=
  match out with
  | [] => meta
  | (t, _) :: _ => StreamMeta.mk t (StreamMeta.useTimestamp meta) (StreamMeta.flush meta)
  end.

Definition rx_refill (q : list RxBlock) (b : RxBuffer) : RxBuffer :=
  mkRxBuffer q (rxCapacity b) (rxExpected b)
    (ChannelStats.with_FIFO_filled (fill_fraction (length q) (rxCapacity b)) (rxStats b)).

(** Modelled from the spec: Receive of the per-channel buffer (sections
    4.2, 5 and 6), in its polling form; [StreamRx] is pure virtual in the
    header.  The result is the count transferred, [0] when nothing is
    available yet, [-1] when the stream is not running or the channel has
    no RX buffer. *)
Definition StreamRx (channel : N) (count : N) (meta : StreamMeta.t) (c : Controller)
  : RxOutcome * Controller :=
  match lifecycle c with
  | Running =>
      match rx c !! channel with
      | None => (mkRxOutcome (-1) [] meta, c)
      | Some b =>
          if StreamMeta.useTimestamp meta
             && negb (head_reached (StreamMeta.timestamp meta) (rxQueue b))
          then (mkRxOutcome 0 [] meta, c)
          else
            let r := take_samples (N.to_nat count) (rxQueue b) in
            (mkRxOutcome (Z.of_nat (length (fst r))) (map snd (fst r))
               (stamp_meta (fst r) meta),
             with_rx (<[channel := rx_refill (snd r) b]> (rx c)) c)
      end
  | _ => (mkRxOutcome (-1) [] meta, c)
  end.

(** ** Transmit *)

Record TxOutcome : Type := mkTxOutcome {
  tx_ret : Z;          (* samples accepted, or negative *)
  tx_result : Result
}.

(** Modelled from the spec: the Timestamp Scheduler's test (section 4.3),
    an authoritative timestamp in the past by more than the tolerance. *)
Definition late_submission (P : Params) (now : Z) (meta : StreamMeta.t) : bool :=
  StreamMeta.useTimestamp meta && (StreamMeta.timestamp meta + tolerance P <? now).

Definition tx_refill (q : list TxBlock) (b : TxBuffer) : TxBuffer :=
  mkTxBuffer q (txCapacity b) (txSent b)
    (ChannelStats.with_FIFO_filled (fill_fraction (length q) (txCapacity b)) (txStats b)).

Definition tx_reject (b : TxBuffer) : TxBuffer :=
  mkTxBuffer (txQueue b) (txCapacity b) (txSent b) (ChannelStats.add_late 1 (txStats b)).

(** Modelled from the spec: Transmit of the per-channel buffer and the
    lateness check of the Timestamp Scheduler (sections 4.2, 4.3 and 7),
    in its polling form; [StreamTx] is pure virtual in the header. *)
Definition StreamTx (P : Params) (channel : N) (samples : list Sample)
    (meta : StreamMeta.t) (c : Controller) : TxOutcome * Controller :=
  match lifecycle c with
  | Running =>
      match tx c !! channel with
      | None => (mkTxOutcome (-1) NotConfigured, c)
      | Some b =>
          if late_submission P (hwTime c) meta then
            (mkTxOutcome 0 Late,
             with_nextCall (S (nextCall c))
               (with_tx (<[channel := tx_reject b]> (tx c)) c))
          else if (txCapacity b <=? N.of_nat (length (txQueue b)))%N then
            (mkTxOutcome 0 Success, with_nextCall (S (nextCall c)) c)
          else
            let blk :=
              mkTxBlock (nextCall c)
                (if StreamMeta.useTimestamp meta then Some (StreamMeta.timestamp meta)
                 else None)
                (StreamMeta.flush meta) samples in
            (mkTxOutcome (Z.of_nat (length samples)) Success,
             with_nextCall (S (nextCall c))
               (with_tx (<[channel := tx_refill (txQueue b ++ [blk]) b]> (tx c)) c))
      end
  | _ => (mkTxOutcome (-1) NotRunning, c)
  end.

(** ** The hardware side *)

(** Size on the link of [n] samples, from the frozen descriptor. *)
Definition link_bytes (P : Params) (c : Controller) (n : nat) : Z :=
  match descriptor c with
  | Some cfg =>
      match DataFormat_of_N (StreamConfig.linkFormat cfg) with
      | Some f => Z.of_nat n * linkSampleBytes P f
      | None => 0
      end
  | None => 0
  end.

(** Modelled from the spec: overrun (section 4.4).  The producer writes a
    block: into a full queue the oldest block is
    dropped and an overrun counted. *)
Definition rx_enqueue (blk : RxBlock) (b : RxBuffer) : list RxBlock * N :=
  if (rxCapacity b <=? N.of_nat (length (rxQueue b)))%N
  then (tail (rxQueue b) ++ [blk], 1%N)
  else (rxQueue b ++ [blk], 0%N).

(** Modelled from the spec: loss (section 4.4), the span of samples
    missing between the expected timestamp and the packet's. *)
Definition gap (expected : option Z) (ts : Z) : N :=
  match expected with
  | Some e => Z.to_N (ts - e)
  | None => 0%N
  end.

Definition stale (expected : option Z) (ts : Z) : bool :=
  match expected with
  | Some e => ts <? e
  | None => false
  end.

Definition rx_accept (bytes : Z) (blk : RxBlock) (b : RxBuffer) : RxBuffer :=
  let r := rx_enqueue blk b in
  mkRxBuffer (fst r) (rxCapacity b)
    (Some (rbTime blk + Z.of_nat (length (rbSamples blk))))
    (ChannelStats.with_FIFO_filled (fill_fraction (length (fst r)) (rxCapacity b))
       (ChannelStats.add_overrun (snd r)
          (ChannelStats.add_loss (gap (rxExpected b) (rbTime blk))
             (ChannelStats.count_transfer bytes (rxStats b))))).

(** Modelled from the spec: the RX producer and the Stats Collector on a
    packet from the transport (sections 4.2, 4.4 and 5).  A packet without
    samples, or stamped before samples already queued, is discarded: it
    could only be delivered out of order. *)
Definition hw_packet (P : Params) (channel : N) (ts : Z) (samples : list Sample)
    (c : Controller) : Controller :=
  match lifecycle c with
  | Running =>
      match rx c !! channel with
      | None => c
      | Some b =>
          match samples with
          | [] => c
          | _ :: _ =>
              if stale (rxExpected b) ts then c
              else
                with_rx (<[channel :=
                            rx_accept (link_bytes P c (length samples))
                              (mkRxBlock ts samples) b]> (rx c)) c
          end
      end
  | _ => c
  end.

Definition due (now : Z) (blk : TxBlock) : bool :=
  match tbDue blk with
  | Some t => t <=? now
  | None => true
  end.

(** Modelled from the spec: the TX consumer and underrun (sections 4.2 and
    4.4).  It takes the head block when it is due; asking an empty
    queue is an underrun. *)
Definition tx_release (bytes_of : nat -> Z) (now : Z) (b : TxBuffer) : TxBuffer :=
  match txQueue b with
  | [] => mkTxBuffer [] (txCapacity b) (txSent b) (ChannelStats.add_underrun 1 (txStats b))
  | blk :: q' =>
      if due now blk then
        mkTxBuffer q' (txCapacity b) (txSent b ++ [blk])
          (ChannelStats.with_FIFO_filled (fill_fraction (length q') (txCapacity b))
             (ChannelStats.count_transfer (bytes_of (length (tbSamples blk))) (txStats b)))
      else b
  end.

(** Modelled from the spec: release of held TX blocks by the Timestamp
    Scheduler, for all channels at once (sections 4.2 and 4.4). *)
Definition hw_release (P : Params) (c : Controller) : Controller :=
  match lifecycle c with
  | Running => with_tx (tx_release (link_bytes P c) (hwTime c) <$> tx c) c
  | _ => c
  end.

(** Modelled from the spec: the hardware-reported current time, in ticks
    (section 4.3), advances. *)
Definition hw_tick (dt : N) (c : Controller) : Controller :=
  with_hwTime (hwTime c + Z.of_N dt) c.

(** Modelled from the spec: the status callback vetoes further buffering
    (section 4.4); it can only do so when one was registered at setup. *)
Definition callback_registered (c : Controller) : bool :=
  match descriptor c with
  | Some cfg => negb (StreamConfig.statusCallback cfg =? nullptr)%N
  | None => false
  end.

Definition callback_stop (c : Controller) : Controller :=
  match lifecycle c with
  | Running => if callback_registered c then snd (Stop c) else c
  | _ => c
  end.

(** ** Statistics snapshot *)

(** Modelled from the spec: StreamStatus (sections 3 and 6); pure virtual
    in the header.  The snapshot carries the hardware time. *)
Definition StreamStatus (tx_side : bool) (channel : N) (c : Controller)
  : option ChannelStats.t * Controller :=
  if tx_side then
    match tx c !! channel with
    | Some b =>
        let s := ChannelStats.with_timestamp (hwTime c) (txStats b) in
        (Some s,
         with_tx (<[channel := mkTxBuffer (txQueue b) (txCapacity b) (txSent b) s]> (tx c)) c)
    | None => (None, c)
    end
  else
    match rx c !! channel with
    | Some b =>
        let s := ChannelStats.with_timestamp (hwTime c) (rxStats b) in
        (Some s,
         with_rx (<[channel := mkRxBuffer (rxQueue b) (rxCapacity b) (rxExpected b) s]> (rx c)) c)
    | None => (None, c)
    end.

(** ** Runs of the Controller *)

Inductive Event : Type :=
  | EvSetup (cfg : StreamConfig.t)
  | EvStart
  | EvStop
  | EvRx (channel : N) (count : N) (meta : StreamMeta.t)
  | EvTx (channel : N) (samples : list Sample) (meta : StreamMeta.t)
  | EvStatus (tx_side : bool) (channel : N)
  | EvPacket (channel : N) (ts : Z) (samples : list Sample)
  | EvRelease
  | EvTick (dt : N)
  | EvCallbackStop.

Definition step (P : Params) (ev : Event) (c : Controller) : Controller :=
  match ev with
  | EvSetup cfg => snd (Setup P cfg c)
  | EvStart => snd (Start c)
  | EvStop => snd (Stop c)
  | EvRx ch n meta => snd (StreamRx ch n meta c)
  | EvTx ch samples meta => snd (StreamTx P ch samples meta c)
  | EvStatus side ch => snd (StreamStatus side ch c)
  | EvPacket ch ts samples => hw_packet P ch ts samples c
  | EvRelease => hw_release P c
  | EvTick dt => hw_tick dt c
  | EvCallbackStop => callback_stop c
  end.

Fixpoint run (P : Params) (evs : list Event) (c : Controller) : Controller :=
  match evs with
  | [] => c
  | ev :: evs' => run P evs' (step P ev c)
  end.

Definition reachable (P : Params) (c : Controller) : Prop :=
  exists t0 evs, c = run P evs (initial t0).


(** ** Predicates used in the statements *)

(** A descriptor that breaks the StreamDescriptor invariant: a declared
    channel index outside the module or not below [MAX_CHANNEL_COUNT], a
    channel declared twice, more than [MAX_CHANNEL_COUNT] channels, or a
    format field that holds no enumerator. *)
Definition malformed (P : Params) (cfg : StreamConfig.t) : Prop :=
  let rxs := declared (StreamConfig.rxCount cfg) (StreamConfig.rxChannels cfg) in
  let txs := declared (StreamConfig.txCount cfg) (StreamConfig.txChannels cfg) in
  (exists ch, (ch ∈ rxs \/ ch ∈ txs) /\ (moduleChannels P <= ch)%N)
  \/ (exists ch, (ch ∈ rxs \/ ch ∈ txs) /\ (MAX_CHANNEL_COUNT <= ch)%N)
  \/ ~ NoDup rxs
  \/ ~ NoDup txs
  \/ (MAX_CHANNEL_COUNT < StreamConfig.rxCount cfg)%N
  \/ (MAX_CHANNEL_COUNT < StreamConfig.txCount cfg)%N
  \/ DataFormat_of_N (StreamConfig.format cfg) = None
  \/ DataFormat_of_N (StreamConfig.linkFormat cfg) = None.













(** The stats snapshot of a channel, as [StreamStatus] returns it. *)
Definition snapshot (tx_side : bool) (channel : N) (c : Controller)
  : option ChannelStats.t :=
  fst (StreamStatus tx_side channel c).

(** ** A concrete setting, used to exercise the statements *)

Definition example_params : Params :=
  mkParams 100 4 (fun f => match f with I16 => 4 | I12 => 3 | F32 => 8 end) 2.

(** Host format F32, link format I16, two blocks of buffering. *)
Definition example_config (rxs txs : list N) (callback : pointer) : StreamConfig.t :=
  StreamConfig.mk
    (N.of_nat (length rxs)) (rxs ++ replicate (16 - length rxs) 0%N)
    (N.of_nat (length txs)) (txs ++ replicate (16 - length txs) 0%N)
    (DataFormat_to_N F32) (DataFormat_to_N I16) 2 (S754_zero false) false
    callback nullptr nullptr.

Definition example_start : list Event :=
  [EvSetup (example_config [0; 1] [0] nullptr); EvStart]%N.

Definition example_running : Controller :=
  run example_params example_start (initial 0).

Definition example_received : Controller :=
  run example_params
    [EvPacket 0 1000 [11; 12; 13]; EvPacket 0 1010 [14; 15]] example_running.

Definition example_meta (t : Z) (use : bool) : StreamMeta.t :=
  StreamMeta.mk t use false.

Definition example_device : Device := fun _ => example_running.

(** * Proofs *)

(** ** Zero-filled objects *)

Lemma le_unsigned_zeros (n : nat) : le_unsigned (replicate n x00) = 0%N.
Proof.
  induction n as [|n IH]; simpl; [reflexivity|].
  rewrite IH. reflexivity.
Qed.

Lemma field_bytes_memset (raw : list byte) (c : byte) (n off size : nat) :
  (off + size <= n)%nat ->
  field_bytes (memset raw c n) off size = replicate size c.
Proof.
  intros H. unfold field_bytes, memset.
  rewrite drop_app_le by (rewrite length_replicate; lia).
  rewrite drop_replicate.
  rewrite take_app_le by (rewrite length_replicate; lia).
  rewrite take_replicate. f_equal. lia.
Qed.

Lemma load_unsigned_memset0 (raw : list byte) (n off size : nat) :
  (off + size <= n)%nat ->
  le_unsigned (field_bytes (memset raw x00 n) off size) = 0%N.
Proof. intros H. rewrite field_bytes_memset by exact H. apply le_unsigned_zeros. Qed.

Lemma load_bool_memset0 (raw : list byte) (n off : nat) :
  (off + 1 <= n)%nat -> load_bool (memset raw x00 n) off = false.
Proof.
  intros H. unfold load_bool, load_u8. rewrite load_unsigned_memset0 by exact H.
  reflexivity.
Qed.

Lemma load_i64_memset0 (raw : list byte) (n off : nat) :
  (off + 8 <= n)%nat -> load_i64 (memset raw x00 n) off = 0.
Proof.
  intros H. unfold load_i64, load_u64. rewrite load_unsigned_memset0 by exact H.
  reflexivity.
Qed.

Lemma load_float_memset0 (raw : list byte) (n off : nat) :
  (off + 4 <= n)%nat -> load_float (memset raw x00 n) off = S754_zero false.
Proof.
  intros H. unfold load_float, load_u32. rewrite load_unsigned_memset0 by exact H.
  reflexivity.
Qed.

Lemma load_u8_array_memset0 (raw : list byte) (n off k : nat) :
  (off + k <= n)%nat ->
  load_u8_array (memset raw x00 n) off k = replicate k 0%N.
Proof.
  intros H. unfold load_u8_array.
  assert (G : forall j, (j + k <= n - off)%nat ->
            map (fun i => load_u8 (memset raw x00 n) (off + i)) (seq j k)
            = replicate k 0%N).
  { clear H. induction k as [|k IH]; intros j Hj; simpl; [reflexivity|].
    unfold load_u8 at 1. rewrite load_unsigned_memset0 by lia.
    f_equal. apply IH. lia. }
  apply G. lia.
Qed.

(** A field that does not contain byte [i] is not affected by a store to it. *)
Lemma field_bytes_store_other (mem : list byte) (i off size : nat) (c : byte) :
  (i < off \/ off + size <= i)%nat ->
  field_bytes (store_byte mem i c) off size = field_bytes mem off size.
Proof.
  intros H. unfold field_bytes, store_byte.
  destruct (decide (i < off)%nat) as [Hlt|Hge].
  - rewrite drop_insert_lt by lia. reflexivity.
  - rewrite drop_insert_ge by lia. rewrite take_insert_ge by lia. reflexivity.
Qed.

Lemma field_bytes_store_same (mem : list byte) (i : nat) (c : byte) :
  (i < length mem)%nat ->
  field_bytes (store_byte mem i c) i 1 = [c].
Proof.
  intros H. unfold field_bytes, store_byte.
  rewrite drop_insert_ge by lia. rewrite Nat.sub_diag.
  destruct (drop i mem) as [|x l] eqn:E.
  - apply (f_equal length) in E. rewrite length_drop in E. simpl in E. lia.
  - reflexivity.
Qed.

Lemma length_memset (raw : list byte) (c : byte) (n : nat) :
  (n <= length (memset raw c n))%nat.
Proof. unfold memset. rewrite length_app, length_replicate. lia. Qed.

(** C10: a default-constructed [StreamStats] has every field zero or
    false: timestamp, bytesTransferred, packets, FIFO_filled (+0.0),
    dataRate_Bps, txDataRate_Bps, overrun, underrun, loss, late all 0 and
    isTx false, whatever the storage held before and wherever the compiler
    placed the fields inside the object. *)
Theorem StreamStats_default_zero (L : StreamStats.layout) (raw : list byte) :
  StreamStats.layout_ok L ->
  StreamStats.ctor L raw =
    StreamStats.mk 0 0 0 (S754_zero false) (S754_zero false) (S754_zero false)
      0 0 0 0 false.
Proof.
  intros H. unfold StreamStats.layout_ok in H.
  destruct H as (H1 & H2 & H3 & H4 & H5 & H6 & H7 & H8 & H9 & H10 & H11).
  unfold StreamStats.ctor, StreamStats.load, StreamStats.ctor_mem.
  rewrite !load_i64_memset0, !load_float_memset0, load_bool_memset0 by assumption.
  unfold load_u64, load_u32. rewrite !load_unsigned_memset0 by assumption.
  reflexivity.
Qed.

Lemma StreamStats_default_zero_witness :
  StreamStats.layout_ok StreamStats.lp64 /\
  StreamStats.ctor StreamStats.lp64 (replicate 56 xff) =
    StreamStats.mk 0 0 0 (S754_zero false) (S754_zero false) (S754_zero false)
      0 0 0 0 false.
Proof.
  assert (H : StreamStats.layout_ok StreamStats.lp64).
  { unfold StreamStats.layout_ok. simpl. lia. }
  split; [exact H|].
  exact (StreamStats_default_zero StreamStats.lp64 (replicate 56 xff) H).
Defined.

(** C9: a default-constructed [StreamConfig::Extras] has usePoll = true
    and rxSamplesInPacket, rxPacketsInBatch, txMaxPacketsInBatch and
    txSamplesInPacket all 0. *)
Theorem Extras_default (L : Extras.layout) (raw : list byte) :
  Extras.layout_ok L ->
  Extras.ctor L raw = Extras.mk true 0 0 0 0.
Proof.
  intros H. unfold Extras.layout_ok in H.
  destruct H as (H1 & H2 & H3 & H4 & H5 & D2 & D3 & D4 & D5).
  unfold Extras.ctor, Extras.load, Extras.ctor_mem.
  unfold load_bool, load_u8, load_u16, load_u32.
  rewrite field_bytes_store_same
    by (pose proof (length_memset raw x00 (Extras.sizeof L)); lia).
  rewrite !field_bytes_store_other by assumption.
  rewrite !load_unsigned_memset0 by assumption.
  reflexivity.
Qed.

Lemma Extras_default_witness :
  Extras.layout_ok Extras.lp64 /\
  Extras.ctor Extras.lp64 (replicate 16 xff) = Extras.mk true 0 0 0 0.
Proof.
  assert (H : Extras.layout_ok Extras.lp64).
  { unfold Extras.layout_ok. simpl. lia. }
  split; [exact H|].
  exact (Extras_default Extras.lp64 (replicate 16 xff) H).
Defined.

(** C8: a default-constructed [StreamConfig] has every field at its zero
    value: rxCount = 0, txCount = 0, all sixteen entries of rxChannels and
    of txChannels 0, format and linkFormat the first enumerator I16,
    bufferSize = 0, hintSampleRate = +0.0, alignPhase = false, and
    statusCallback, userData and extraConfig null. *)
Theorem StreamConfig_default_zero (L : StreamConfig.layout) (raw : list byte) :
  StreamConfig.layout_ok L ->
  StreamConfig.ctor L raw =
    StreamConfig.mk 0 (replicate 16 0%N) 0 (replicate 16 0%N)
      (DataFormat_to_N I16) (DataFormat_to_N I16) 0 (S754_zero false) false
      nullptr nullptr nullptr
  /\ DataFormat_of_N (StreamConfig.format (StreamConfig.ctor L raw)) = Some I16
  /\ DataFormat_of_N (StreamConfig.linkFormat (StreamConfig.ctor L raw)) = Some I16.
Proof.
  intros H. unfold StreamConfig.layout_ok in H.
  destruct H as (H1 & H2 & H3 & H4 & H5 & H6 & H7 & H8 & H9 & H10 & H11 & H12).
  assert (E : StreamConfig.ctor L raw =
    StreamConfig.mk 0 (replicate 16 0%N) 0 (replicate 16 0%N)
      (DataFormat_to_N I16) (DataFormat_to_N I16) 0 (S754_zero false) false
      nullptr nullptr nullptr).
  { unfold StreamConfig.ctor, StreamConfig.load, StreamConfig.ctor_mem.
    rewrite !load_u8_array_memset0 by assumption.
    rewrite load_float_memset0, load_bool_memset0 by assumption.
    unfold load_u8, load_u32, load_ptr.
    rewrite !load_unsigned_memset0 by assumption.
    reflexivity. }
  rewrite E. repeat split; reflexivity.
Qed.

Lemma StreamConfig_default_zero_witness :
  StreamConfig.layout_ok StreamConfig.lp64 /\
  StreamConfig.ctor StreamConfig.lp64 (replicate 80 xff) =
    StreamConfig.mk 0 (replicate 16 0%N) 0 (replicate 16 0%N)
      0 0 0 (S754_zero false) false 0%N 0%N 0%N.
Proof.
  assert (H : StreamConfig.layout_ok StreamConfig.lp64).
  { unfold StreamConfig.layout_ok, MAX_CHANNEL_COUNT. simpl. lia. }
  split; [exact H|].
  exact (proj1 (StreamConfig_default_zero StreamConfig.lp64 (replicate 80 xff) H)).
Defined.

(** The decoders are not constant: they read back what the bytes hold. *)
Example load_examples :
  load_u32 [x00; x01; x02; x00; x00; x00] 1 = 513%N
  /\ load_i64 (replicate 8 xff) 0 = -1
  /\ load_bool [x00; x07] 1 = true
  /\ load_float [x00; x00; x80; x3f] 0 = S754_finite false 8388608 (-23)
  /\ load_float [x00; x00; x00; x80] 0 = S754_zero true.
Proof. repeat split; reflexivity. Qed.

(** ** Default bodies of the optional operations *)

(** C7: for every buffer and length (every id list, value list, count and
    unit), the base-class bodies of GPIOWrite, GPIORead, GPIODirWrite,
    GPIODirRead, CustomParameterWrite and CustomParameterRead return -1
    and leave the device and the caller's buffers as they were. *)
Theorem optional_operations_unsupported (Device : Type) (self : Device) :
  (forall buffer bufLength, GPIOWrite Device self buffer bufLength = (-1, self))
  /\ (forall buffer bufLength, GPIORead Device self buffer bufLength = (-1, self, buffer))
  /\ (forall buffer bufLength, GPIODirWrite Device self buffer bufLength = (-1, self))
  /\ (forall buffer bufLength, GPIODirRead Device self buffer bufLength = (-1, self, buffer))
  /\ (forall ids values count units,
        CustomParameterWrite Device self ids values count units = (-1, self))
  /\ (forall ids values count units,
        CustomParameterRead Device self ids values count units
        = (-1, self, values, units)).
Proof. repeat split. Qed.

(** ** Descriptor validation *)

Lemma existsb_eqb_elem (x : N) (l : list N) :
  existsb (N.eqb x) l = true <-> x ∈ l.
Proof.
  rewrite existsb_exists. split.
  - intros (y & Hy & E). apply N.eqb_eq in E. subst y. by apply list_elem_of_In.
  - intros H. exists x. split; [by apply list_elem_of_In | apply N.eqb_refl].
Qed.

Lemma has_duplicate_NoDup (l : list N) :
  has_duplicate l = false <-> NoDup l.
Proof.
  induction l as [|x l IH]; simpl.
  - split; [intros _; constructor | reflexivity].
  - rewrite orb_false_iff, IH, NoDup_cons.
    assert (G : existsb (N.eqb x) l = false <-> x ∉ l).
    { rewrite <- existsb_eqb_elem. destruct (existsb (N.eqb x) l); split; intros H.
      - discriminate. - exfalso. by apply H. - intros E. discriminate. - reflexivity. }
    rewrite G. reflexivity.
Qed.

Lemma channels_valid_spec (P : Params) (count : N) (channels : list N) :
  channels_valid P count channels = true <->
  (count <= MAX_CHANNEL_COUNT)%N
  /\ (forall ch, ch ∈ declared count channels ->
        (ch < MAX_CHANNEL_COUNT)%N /\ (ch < moduleChannels P)%N)
  /\ NoDup (declared count channels).
Proof.
  unfold channels_valid. rewrite !andb_true_iff, negb_true_iff.
  rewrite has_duplicate_NoDup, N.leb_le, forallb_forall.
  split.
  - intros [[H1 H2] H3]. repeat split; try assumption.
    + apply list_elem_of_In, H2 in H. unfold channel_in_range in H.
      apply andb_true_iff in H. destruct H as [H _]. by apply N.ltb_lt.
    + apply list_elem_of_In, H2 in H. unfold channel_in_range in H.
      apply andb_true_iff in H. destruct H as [_ H]. by apply N.ltb_lt.
  - intros (H1 & H2 & H3). repeat split; try assumption.
    intros ch Hch. apply list_elem_of_In, H2 in Hch. destruct Hch as [Ha Hb].
    unfold channel_in_range. apply andb_true_iff. split; by apply N.ltb_lt.
Qed.

Lemma format_valid_spec (v : N) :
  format_valid v = true <-> DataFormat_of_N v <> None.
Proof.
  unfold format_valid. destruct (DataFormat_of_N v); split; intros H;
    try discriminate; try reflexivity; try congruence.
Qed.

(** The checker accepts exactly the descriptors that are not malformed. *)
Lemma validate_spec (P : Params) (cfg : StreamConfig.t) :
  validate P cfg = true <-> ~ malformed P cfg.
Proof.
  unfold validate, malformed.
  rewrite !andb_true_iff, !channels_valid_spec, !format_valid_spec.
  set (rxs := declared _ (StreamConfig.rxChannels cfg)).
  set (txs := declared _ (StreamConfig.txChannels cfg)).
  split.
  - intros [[[(R1 & R2 & R3) (T1 & T2 & T3)] F1] F2] M.
    destruct M as [(ch & [Hin|Hin] & Hch) | [(ch & [Hin|Hin] & Hch) | M]].
    + apply R2 in Hin. lia.
    + apply T2 in Hin. lia.
    + apply R2 in Hin. lia.
    + apply T2 in Hin. lia.
    + destruct M as [M | [M | [M | [M | [M | M]]]]];
        try contradiction; try lia.
  - intros M. repeat split.
    + apply N.le_ngt. intros H. apply M. tauto.
    + destruct (N.lt_ge_cases ch MAX_CHANNEL_COUNT) as [G|G]; [exact G|].
      exfalso. apply M. right. left. exists ch. tauto.
    + destruct (N.lt_ge_cases ch (moduleChannels P)) as [G|G]; [exact G|].
      exfalso. apply M. left. exists ch. tauto.
    + destruct (decide (NoDup rxs)) as [G|G]; [exact G|]. exfalso. apply M. tauto.
    + apply N.le_ngt. intros H. apply M. tauto.
    + destruct (N.lt_ge_cases ch MAX_CHANNEL_COUNT) as [G|G]; [exact G|].
      exfalso. apply M. right. left. exists ch. tauto.
    + destruct (N.lt_ge_cases ch (moduleChannels P)) as [G|G]; [exact G|].
      exfalso. apply M. left. exists ch. tauto.
    + destruct (decide (NoDup txs)) as [G|G]; [exact G|]. exfalso. apply M. tauto.
    + intros E. apply M. tauto.
    + intros E. apply M. tauto.
Qed.

Lemma malformed_rejected (P : Params) (cfg : StreamConfig.t) :
  malformed P cfg -> validate P cfg = false.
Proof.
  intros M. destruct (validate P cfg) eqn:E; [|reflexivity].
  apply validate_spec in E. contradiction.
Qed.

Lemma Setup_failure_unchanged (P : Params) (cfg : StreamConfig.t) (c : Controller) :
  fst (Setup P cfg c) <> Success -> snd (Setup P cfg c) = c.
Proof.
  unfold Setup. destruct (negb (validate P cfg)); [reflexivity|].
  destruct (lifecycle c); simpl; intros H; congruence.
Qed.

Lemma on_module_unchanged {R : Type} (op : Controller -> R * Controller)
    (dev : Device) (m : N) :
  snd (op (dev m)) = dev m -> forall i, snd (on_module op dev m) i = dev i.
Proof.
  intros H i. unfold on_module. simpl.
  destruct (N.eqb_spec i m) as [->|]; [exact H | reflexivity].
Qed.

(** C1: a descriptor with a declared RX or TX channel index out of the
    module's range or not below MAX_CHANNEL_COUNT (16), with a channel
    declared twice, with more than MAX_CHANNEL_COUNT channels, or with a
    host or link format that is no enumerator, makes StreamSetup fail with
    InvalidConfig; and whenever StreamSetup does not succeed, every
    Controller of the device is exactly as it was before the call. *)
Theorem setup_rejects_malformed (P : Params) (dev : Device)
    (config : StreamConfig.t) (moduleIndex : N) :
  (malformed P config -> fst (StreamSetup P dev config moduleIndex) = InvalidConfig)
  /\ (fst (StreamSetup P dev config moduleIndex) <> Success ->
      forall i, snd (StreamSetup P dev config moduleIndex) i = dev i).
Proof.
  split.
  - intros M. unfold StreamSetup, on_module, Setup. simpl.
    rewrite (malformed_rejected P config M). reflexivity.
  - intros H. unfold StreamSetup. apply on_module_unchanged.
    apply Setup_failure_unchanged. exact H.
Qed.

(** ** Start and Stop *)

Lemma Stop_idempotent (c : Controller) : snd (Stop (snd (Stop c))) = snd (Stop c).
Proof. unfold Stop. destruct (lifecycle c) eqn:E; simpl; try rewrite E; reflexivity. Qed.

Lemma Stop_lifecycle (c : Controller) :
  lifecycle c <> Idle -> lifecycle (snd (Stop c)) = Stopped.
Proof. unfold Stop. destruct (lifecycle c) eqn:E; simpl; congruence. Qed.

(** C6: for every module index, a second StreamStop leaves every
    Controller as the first one left it, and that state is Stopped
    whenever a stream had been set up on the module; StreamStart on a
    module that is Running reports a soft warning and changes nothing. *)
Theorem stop_idempotent_start_noop (dev : Device) (moduleIndex : N) :
  (forall i, snd (StreamStop (snd (StreamStop dev moduleIndex)) moduleIndex) i
             = snd (StreamStop dev moduleIndex) i)
  /\ (lifecycle (dev moduleIndex) <> Idle ->
      lifecycle (snd (StreamStop dev moduleIndex) moduleIndex) = Stopped)
  /\ (lifecycle (dev moduleIndex) = Running ->
      fst (StreamStart dev moduleIndex) = SoftWarning
      /\ forall i, snd (StreamStart dev moduleIndex) i = dev i).
Proof.
  repeat split.
  - intros i. unfold StreamStop, on_module. simpl.
    rewrite N.eqb_refl. destruct (N.eqb_spec i moduleIndex); [|reflexivity].
    apply Stop_idempotent.
  - intros H. unfold StreamStop, on_module. simpl. rewrite N.eqb_refl.
    by apply Stop_lifecycle.
  - unfold StreamStart, on_module, Start. simpl. by rewrite H.
  - apply on_module_unchanged. unfold Start. by rewrite H.
Qed.

(** ** The fill fraction *)




(** ** Ordered queues *)










(** ** One event on one RX buffer *)









(** ** One event on one TX buffer *)





(** ** One event on the Controller *)









(** ** The invariant of the Controller *)











Lemma run_app (P : Params) (evs1 evs2 : list Event) (c : Controller) :
  run P (evs1 ++ evs2) c = run P evs2 (run P evs1 c).
Proof. revert c. induction evs1 as [|ev evs1 IH]; simpl; intros c; [done|]. apply IH. Qed.

Lemma reachable_step (P : Params) (ev : Event) (c : Controller) :
  reachable P c -> reachable P (step P ev c).
Proof.
  intros (t0 & evs & ->). exists t0, (evs ++ [ev]). by rewrite run_app.
Qed.

(** ** Ordered delivery on the RX side *)






(** ** Late submissions on the TX side *)




(** ** Fill fraction and overrun counter in snapshots *)






(** ** The statements at work on the concrete setting *)



Lemma setup_rejects_malformed_witness :
  malformed example_params (example_config [0; 0]%N [] nullptr)
  /\ fst (StreamSetup example_params example_device
            (example_config [0; 0]%N [] nullptr) 3) = InvalidConfig
  /\ forall i,
       snd (StreamSetup example_params example_device
              (example_config [0; 0]%N [] nullptr) 3) i = example_device i.
Proof.
  assert (M : malformed example_params (example_config [0; 0]%N [] nullptr)).
  { right. right. left. simpl. intros H. apply NoDup_cons in H.
    destruct H as [H _]. apply H. constructor. }
  destruct (setup_rejects_malformed example_params example_device
              (example_config [0; 0]%N [] nullptr) 3) as [H1 H2].
  split; [exact M|]. split; [exact (H1 M)|].
  apply H2. rewrite (H1 M). discriminate.
Defined.

Lemma stop_idempotent_start_noop_witness :
  lifecycle (example_device 3%N) = Running
  /\ lifecycle (snd (StreamStop example_device 3%N) 3%N) = Stopped
  /\ fst (StreamStart example_device 3%N) = SoftWarning
  /\ (forall i, snd (StreamStart example_device 3%N) i = example_device i).
Proof.
  assert (R : lifecycle (example_device 3%N) = Running) by reflexivity.
  destruct (stop_idempotent_start_noop example_device 3%N) as (_ & H2 & H3).
  split; [exact R|]. split.
  - apply H2. rewrite R. discriminate.
  - exact (H3 R).
Defined.




(** ** The model on concrete inputs *)

Example example_rx_partial :
  fst (StreamRx 0 2 (example_meta 0 false) example_received)
  = mkRxOutcome 2 [11; 12] (example_meta 1000 false).
Proof. vm_compute. reflexivity. Qed.

(** With a requested timestamp the head has not reached, nothing is
    returned yet. *)
Example example_rx_not_yet :
  fst (StreamRx 0 2 (example_meta 1005 true) example_received)
  = mkRxOutcome 0 [] (example_meta 1005 true).
Proof. vm_compute. reflexivity. Qed.

Example example_rx_not_running :
  rx_ret (fst (StreamRx 0 2 (example_meta 0 false)
                 (snd (Stop example_received)))) = -1.
Proof. vm_compute. reflexivity. Qed.

(** A third packet into the two-block queue: the oldest block goes, the
    overrun is counted, and the seven plus eight missing ticks are in
    [loss]. *)
Example example_overrun :
  snapshot false 0 (run example_params [EvPacket 0 1020 [16]] example_received)
  = Some (ChannelStats.mk 0 24 3 1 1 0 15 0 false).
Proof. vm_compute. reflexivity. Qed.

(** Once the host has emptied the queue, a polled snapshot shows the
    overrun counted earlier next to an empty queue. *)
Example example_overrun_then_drained :
  snapshot false 0
    (run example_params
       [EvPacket 0 1020 [16]; EvRx 0 8 (example_meta 0 false)] example_received)
  = Some (ChannelStats.mk 0 24 3 0 1 0 15 0 false).
Proof. vm_compute. reflexivity. Qed.

Example example_setup_out_of_range :
  fst (Setup example_params (example_config [0; 2]%N [] nullptr) (initial 0))
  = InvalidConfig.
Proof. vm_compute. reflexivity. Qed.

Example example_setup_accepted :
  fst (Setup example_params (example_config [0; 1]%N [1]%N nullptr) (initial 0))
  = Success.
Proof. vm_compute. reflexivity. Qed.

Example example_setup_again :
  fst (Setup example_params (example_config [0; 1]%N [1]%N nullptr) example_running)
  = AlreadyConfigured.
Proof. vm_compute. reflexivity. Qed.

(** An on-time block is sent once it is due; a late one never is. *)
Example example_tx :
  (fun c => (txSent <$> tx c !! 0%N, ChannelStats.late <$> (txStats <$> tx c !! 0%N)))
    (run example_params
       [EvTick 200; EvTx 0 [1; 2] (example_meta 5 true);
        EvTx 0 [3] (example_meta 250 true); EvRelease; EvTick 50; EvRelease]
       example_running)
  = (Some [mkTxBlock 1 (Some 250) false [3]], Some 1%N).
Proof. vm_compute. reflexivity. Qed.

(** * More of the header *)

(** ** Writes inside an object *)

Lemma lookup_store_bytes (mem : list byte) (off : nat) (bs : list byte) (i : nat) :
  (off + length bs <= length mem)%nat ->
  store_bytes mem off bs !! i
  = if decide (off <= i < off + length bs)%nat then bs !! (i - off)%nat else mem !! i.
Proof.
  intros H. unfold store_bytes.
  destruct (decide (i < off)%nat) as [Hlt|Hge].
  - rewrite lookup_app_l by (rewrite length_take; lia).
    rewrite lookup_take_lt by lia. case_decide; [lia|done].
  - rewrite lookup_app_r by (rewrite length_take; lia).
    rewrite length_take_le by lia.
    destruct (decide (i - off < length bs)%nat) as [Hin|Hout].
    + rewrite lookup_app_l by lia. case_decide; [done|lia].
    + rewrite lookup_app_r by lia. rewrite lookup_drop.
      case_decide; [lia|]. f_equal. lia.
Qed.

Lemma length_store_bytes (mem : list byte) (off : nat) (bs : list byte) :
  (off + length bs <= length mem)%nat ->
  length (store_bytes mem off bs) = length mem.
Proof.
  intros H. unfold store_bytes.
  rewrite !length_app, length_take_le, length_drop by lia. lia.
Qed.

Lemma lookup_memset_at (mem : list byte) (off : nat) (c : byte) (n i : nat) :
  (off + n <= length mem)%nat ->
  memset_at mem off c n !! i
  = if decide (off <= i < off + n)%nat then Some c else mem !! i.
Proof.
  intros H. unfold memset_at.
  rewrite lookup_store_bytes by (rewrite length_replicate; lia).
  rewrite length_replicate. case_decide; [|done].
  apply lookup_replicate_2. lia.
Qed.

Lemma length_memset_at (mem : list byte) (off : nat) (c : byte) (n : nat) :
  (off + n <= length mem)%nat -> length (memset_at mem off c n) = length mem.
Proof.
  intros H. unfold memset_at. apply length_store_bytes.
  rewrite length_replicate. lia.
Qed.

(** On storage of its own the constructor needs no room beyond what it
    clears. *)
Lemma zero_on_memset_own (raw : list byte) (n : nat) :
  zero_on (memset_at raw 0 x00 n) 0 n.
Proof.
  intros i Hi. unfold memset_at, store_bytes. simpl.
  rewrite lookup_app_l by (rewrite length_replicate; lia).
  apply lookup_replicate_2. lia.
Qed.

Lemma zero_on_sub (mem : list byte) (a k a' k' : nat) :
  zero_on mem a k -> (a <= a')%nat -> (a' + k' <= a + k)%nat -> zero_on mem a' k'.
Proof. intros H H1 H2 i Hi. apply H. lia. Qed.

Lemma field_bytes_zero (mem : list byte) (off size : nat) :
  zero_on mem off size -> field_bytes mem off size = replicate size x00.
Proof.
  intros H. unfold field_bytes. apply list_eq. intros i.
  destruct (decide (i < size)%nat) as [Hlt|Hge].
  - rewrite lookup_take_lt by lia. rewrite lookup_drop.
    rewrite lookup_replicate_2 by lia. apply H. lia.
  - rewrite lookup_take_ge by lia. symmetry. apply lookup_replicate_None. lia.
Qed.

Lemma load_u8_zero (mem : list byte) (off : nat) :
  zero_on mem off 1 -> load_u8 mem off = 0%N.
Proof. intros H. unfold load_u8. by rewrite field_bytes_zero. Qed.

Lemma load_bool_zero (mem : list byte) (off : nat) :
  zero_on mem off 1 -> load_bool mem off = false.
Proof. intros H. unfold load_bool. by rewrite load_u8_zero. Qed.

Lemma load_double_zero (mem : list byte) (off : nat) :
  zero_on mem off 8 -> load_double mem off = S754_zero false.
Proof. intros H. unfold load_double, load_u64. by rewrite field_bytes_zero. Qed.

(** The codec of [double] on a few values. *)
Example binary64_examples :
  encode_binary64 (S754_zero false) = 0%N
  /\ le_bytes 8 (encode_binary64 (S754_zero false)) = replicate 8 x00
  /\ encode_binary64 (S754_finite false 4503599627370496 (-52)) = 4607182418800017408%N
  /\ decode_binary64 4607182418800017408 = S754_finite false 4503599627370496 (-52)
  /\ decode_binary64 (encode_binary64 (S754_finite true 5629499534213120 (-51)))
     = S754_finite true 5629499534213120 (-51)
  /\ load_double (store_double (replicate 12 xff) 2
                    (S754_finite true 5629499534213120 (-51))) 2
     = S754_finite true 5629499534213120 (-51).
Proof. repeat split; vm_compute; reflexivity. Qed.

(** ** [ChannelConfig] *)

Lemma GFIRFilter_load_zero (L : GFIRFilter.layout) (mem : list byte) (base : nat) :
  GFIRFilter.layout_ok L -> zero_on mem base (GFIRFilter.sizeof L) ->
  GFIRFilter.load L mem base = GFIRFilter.zero.
Proof.
  intros [H1 H2] Hz. unfold GFIRFilter.load, GFIRFilter.zero.
  rewrite load_double_zero by (eapply zero_on_sub; [exact Hz|lia|lia]).
  rewrite load_bool_zero by (eapply zero_on_sub; [exact Hz|lia|lia]).
  reflexivity.
Qed.

Lemma ChannelConfig_load_zero (L : ChannelConfig.layout) (mem : list byte) (base : nat) :
  ChannelConfig.layout_ok L -> zero_on mem base (ChannelConfig.sizeof L) ->
  ChannelConfig.load L mem base = ChannelConfig.zero.
Proof.
  intros [HG H] Hz. unfold ChannelConfig.load, ChannelConfig.zero.
  rewrite !load_double_zero by (eapply zero_on_sub; [exact Hz|lia|lia]).
  rewrite !load_bool_zero by (eapply zero_on_sub; [exact Hz|lia|lia]).
  rewrite !load_u8_zero by (eapply zero_on_sub; [exact Hz|lia|lia]).
  rewrite !GFIRFilter_load_zero
    by first [exact HG | eapply zero_on_sub; [exact Hz|lia|lia]].
  reflexivity.
Qed.

(** X1: a default-constructed [ChannelConfig] has every frequency, offset,
    rate, gain and filter bandwidth +0.0, every path and oversampling
    ratio 0, and every flag (both filters' [enabled] included) false. *)
Theorem ChannelConfig_default_zero (L : ChannelConfig.layout) (raw : list byte) :
  ChannelConfig.layout_ok L ->
  ChannelConfig.ctor L raw = ChannelConfig.zero.
Proof.
  intros H. unfold ChannelConfig.ctor, ChannelConfig.ctor_at.
  apply ChannelConfig_load_zero; [exact H|]. apply zero_on_memset_own.
Qed.

Lemma ChannelConfig_lp64_ok : ChannelConfig.layout_ok ChannelConfig.lp64.
Proof.
  unfold ChannelConfig.layout_ok, GFIRFilter.layout_ok. simpl. lia.
Qed.

Lemma ChannelConfig_default_zero_witness :
  ChannelConfig.layout_ok ChannelConfig.lp64
  /\ ChannelConfig.ctor ChannelConfig.lp64 (replicate 136 xff) = ChannelConfig.zero.
Proof.
  split; [exact ChannelConfig_lp64_ok|].
  exact (ChannelConfig_default_zero ChannelConfig.lp64 (replicate 136 xff)
           ChannelConfig_lp64_ok).
Defined.

(** X4: constructing a [ChannelConfig] in place, as an element of an
    array, clears the [sizeof(ChannelConfig)] bytes of that element and
    nothing else: the storage keeps its length and every byte outside the
    element keeps its value. *)
Theorem ChannelConfig_ctor_local (L : ChannelConfig.layout) (mem : list byte)
    (base : nat) :
  (base + ChannelConfig.sizeof L <= length mem)%nat ->
  length (ChannelConfig.ctor_at L mem base) = length mem
  /\ zero_on (ChannelConfig.ctor_at L mem base) base (ChannelConfig.sizeof L)
  /\ (forall i, (i < base \/ base + ChannelConfig.sizeof L <= i)%nat ->
        ChannelConfig.ctor_at L mem base !! i = mem !! i).
Proof.
  intros H. unfold ChannelConfig.ctor_at. split; [by apply length_memset_at|].
  split.
  - intros i Hi. rewrite lookup_memset_at by exact H. case_decide; [done|lia].
  - intros i Hi. rewrite lookup_memset_at by exact H. case_decide; [lia|done].
Qed.

Lemma ChannelConfig_ctor_local_witness :
  ChannelConfig.ctor_at ChannelConfig.lp64 (replicate 300 xff) 136 !! 135%nat = Some xff
  /\ ChannelConfig.ctor_at ChannelConfig.lp64 (replicate 300 xff) 136 !! 136%nat = Some x00
  /\ ChannelConfig.ctor_at ChannelConfig.lp64 (replicate 300 xff) 136 !! 272%nat = Some xff.
Proof.
  assert (H : (136 + ChannelConfig.sizeof ChannelConfig.lp64
               <= length (replicate 300 xff))%nat).
  { rewrite length_replicate. simpl. lia. }
  destruct (ChannelConfig_ctor_local ChannelConfig.lp64 (replicate 300 xff) 136 H)
    as (_ & Hz & Ho).
  split; [|split].
  - rewrite Ho by (simpl; lia). apply lookup_replicate_2. lia.
  - apply Hz. simpl. lia.
  - rewrite Ho by (simpl; lia). apply lookup_replicate_2. lia.
Defined.

(** ** [SDRConfig] *)

Lemma store_double_zero (mem : list byte) (off : nat) :
  store_double mem off (S754_zero false) = memset_at mem off x00 8.
Proof. reflexivity. Qed.

Lemma construct_channels_lookup (L : SDRConfig.layout) (n : nat) :
  forall i mem,
    (SDRConfig.off_element L (i + n) <= length mem)%nat ->
    length (SDRConfig.construct_channels L mem i n) = length mem
    /\ forall j,
         SDRConfig.construct_channels L mem i n !! j
         = if decide (SDRConfig.off_element L i <= j < SDRConfig.off_element L (i + n))%nat
           then Some x00 else mem !! j.
Proof.
  unfold SDRConfig.off_element.
  induction n as [|n IH]; intros i mem H; simpl.
  - split; [done|]. intros j. case_decide; [|done].
    replace (i + 0)%nat with i in * by lia. lia.
  - set (sz := ChannelConfig.sizeof (SDRConfig.element L)) in *.
    assert (Hin : (SDRConfig.off_channel L + i * sz + sz <= length mem)%nat) by nia.
    set (mem' := ChannelConfig.ctor_at (SDRConfig.element L) mem
                   (SDRConfig.off_element L i)).
    assert (Hlen : length mem' = length mem).
    { unfold mem', ChannelConfig.ctor_at, SDRConfig.off_element.
      by apply length_memset_at. }
    destruct (IH (S i) mem') as [IH1 IH2].
    { rewrite Hlen. replace (S i + n)%nat with (i + S n)%nat by lia. exact H. }
    split; [congruence|]. intros j. rewrite IH2.
    unfold mem', ChannelConfig.ctor_at, SDRConfig.off_element.
    rewrite lookup_memset_at by exact Hin. fold sz.
    replace (S i + n)%nat with (i + S n)%nat by lia.
    repeat case_decide; try done; nia.
Qed.

Lemma SDRConfig_ctor_bytes (L : SDRConfig.layout) (raw : list byte) :
  SDRConfig.layout_ok L -> (SDRConfig.sizeof L <= length raw)%nat ->
  length (SDRConfig.ctor_mem L raw) = length raw
  /\ (forall j, SDRConfig.written L j -> SDRConfig.ctor_mem L raw !! j = Some x00)
  /\ (forall j, ~ SDRConfig.written L j -> SDRConfig.ctor_mem L raw !! j = raw !! j).
Proof.
  intros (_ & H1 & H2 & H3) Hlen. unfold SDRConfig.ctor_mem, SDRConfig.written.
  rewrite store_double_zero.
  set (m1 := memset_at raw (SDRConfig.off_referenceClockFreq L) x00 8).
  assert (L1 : length m1 = length raw) by (apply length_memset_at; lia).
  assert (G1 : forall j, m1 !! j
             = if decide (SDRConfig.off_referenceClockFreq L <= j
                          < SDRConfig.off_referenceClockFreq L + 8)%nat
               then Some x00 else raw !! j).
  { intros j. apply lookup_memset_at. lia. }
  destruct (construct_channels_lookup L (N.to_nat MAX_CHANNEL_COUNT) 0 m1)
    as [L2 G2].
  { simpl Nat.add. lia. }
  set (m2 := SDRConfig.construct_channels L m1 0 (N.to_nat MAX_CHANNEL_COUNT)) in *.
  assert (E0 : SDRConfig.off_element L 0 = SDRConfig.off_channel L).
  { unfold SDRConfig.off_element. lia. }
  simpl Nat.add in G2. rewrite E0 in G2.
  unfold store_byte. split; [rewrite length_insert; lia|].
  split; intros j Hj.
  - destruct (decide (SDRConfig.off_skipDefaults L = j)) as [<-|Hne].
    + apply list_lookup_insert_eq. lia.
    + rewrite list_lookup_insert_ne by done. rewrite G2.
      case_decide; [done|]. rewrite G1. case_decide; [done|]. lia.
  - rewrite list_lookup_insert_ne by (intros E; apply Hj; right; right; by symmetry).
    rewrite G2. case_decide; [exfalso; apply Hj; tauto|].
    rewrite G1. case_decide; [exfalso; apply Hj; tauto|done].
Qed.

Lemma map_seq_const {A : Type} (f : nat -> A) (z : A) (n : nat) :
  forall a, (forall i, (a <= i < a + n)%nat -> f i = z) ->
  map f (seq a n) = replicate n z.
Proof.
  induction n as [|n IH]; intros a H; simpl; [done|].
  rewrite H by lia. f_equal. apply IH. intros i Hi. apply H. lia.
Qed.

(** X2: a default-constructed [SDRConfig] has referenceClockFreq = +0.0,
    skipDefaults = false, and each of its sixteen channel configurations
    equal to the all-zero default [ChannelConfig], whatever the storage
    held before. *)
Theorem SDRConfig_default (L : SDRConfig.layout) (raw : list byte) :
  SDRConfig.layout_ok L -> (SDRConfig.sizeof L <= length raw)%nat ->
  SDRConfig.ctor L raw
  = SDRConfig.mk (S754_zero false) (replicate 16 ChannelConfig.zero) false.
Proof.
  intros Hok Hlen.
  destruct (SDRConfig_ctor_bytes L raw Hok Hlen) as (_ & Hw & _).
  destruct Hok as (Hel & H1 & H2 & H3).
  unfold SDRConfig.ctor, SDRConfig.load.
  set (mem := SDRConfig.ctor_mem L raw) in *.
  change (N.to_nat MAX_CHANNEL_COUNT) with 16%nat in *.
  assert (Z1 : zero_on mem (SDRConfig.off_referenceClockFreq L) 8).
  { intros i Hi. apply Hw. left. lia. }
  assert (Z3 : zero_on mem (SDRConfig.off_skipDefaults L) 1).
  { intros i Hi. apply Hw. right. right. lia. }
  rewrite (load_double_zero _ _ Z1), (load_bool_zero _ _ Z3). f_equal.
  apply map_seq_const. intros i Hi.
  apply ChannelConfig_load_zero; [exact Hel|].
  intros j Hj. apply Hw. right. left.
  change (N.to_nat MAX_CHANNEL_COUNT) with 16%nat.
  unfold SDRConfig.off_element in *.
  assert ((i + 1) * ChannelConfig.sizeof (SDRConfig.element L)
          <= 16 * ChannelConfig.sizeof (SDRConfig.element L))%nat
    by (apply Nat.mul_le_mono_r; lia).
  lia.
Qed.

Lemma SDRConfig_lp64_ok : SDRConfig.layout_ok SDRConfig.lp64.
Proof.
  split; [exact ChannelConfig_lp64_ok|].
  unfold SDRConfig.off_element. simpl. lia.
Qed.

Lemma SDRConfig_lp64_room : (SDRConfig.sizeof SDRConfig.lp64 <= length (replicate 2192 xff))%nat.
Proof. rewrite length_replicate. simpl. lia. Qed.

Lemma SDRConfig_default_witness :
  SDRConfig.layout_ok SDRConfig.lp64
  /\ SDRConfig.ctor SDRConfig.lp64 (replicate 2192 xff)
     = SDRConfig.mk (S754_zero false) (replicate 16 ChannelConfig.zero) false.
Proof.
  split; [exact SDRConfig_lp64_ok|].
  exact (SDRConfig_default SDRConfig.lp64 (replicate 2192 xff)
           SDRConfig_lp64_ok SDRConfig_lp64_room).
Defined.

(** X3: the [SDRConfig] constructor, which has no [memset] of its own,
    writes only its two scalar members and the channel array: the storage
    keeps its length, and every other byte, the object's padding included,
    keeps the value it had. *)
Theorem SDRConfig_ctor_keeps_padding (L : SDRConfig.layout) (raw : list byte) :
  SDRConfig.layout_ok L -> (SDRConfig.sizeof L <= length raw)%nat ->
  length (SDRConfig.ctor_mem L raw) = length raw
  /\ forall j, ~ SDRConfig.written L j -> SDRConfig.ctor_mem L raw !! j = raw !! j.
Proof.
  intros Hok Hlen. destruct (SDRConfig_ctor_bytes L raw Hok Hlen) as (H1 & _ & H3).
  split; assumption.
Qed.

Lemma SDRConfig_ctor_keeps_padding_witness :
  (2185 < SDRConfig.sizeof SDRConfig.lp64)%nat
  /\ SDRConfig.ctor_mem SDRConfig.lp64 (replicate 2192 xff) !! 2185%nat = Some xff.
Proof.
  destruct (SDRConfig_ctor_keeps_padding SDRConfig.lp64 (replicate 2192 xff)
              SDRConfig_lp64_ok SDRConfig_lp64_room) as [_ H].
  split; [simpl; lia|].
  rewrite H.
  - apply lookup_replicate_2. lia.
  - unfold SDRConfig.written, SDRConfig.off_element. simpl. lia.
Defined.

(** ** The constructors that [memset] the whole object *)

Lemma memset_bytes (raw : list byte) (c : byte) (n : nat) :
  take n (memset raw c n) = replicate n c
  /\ drop n (memset raw c n) = drop n raw
  /\ ((n <= length raw)%nat -> length (memset raw c n) = length raw).
Proof.
  unfold memset. split; [|split].
  - rewrite take_app_length' by (by rewrite length_replicate). done.
  - rewrite drop_app_length' by (by rewrite length_replicate). done.
  - intros H. rewrite length_app, length_replicate, length_drop. lia.
Qed.

(** X7: the constructors of [StreamStats], [StreamConfig] and
    [StreamConfig::Extras] fix every byte of the object, padding included,
    so two default-constructed objects are bytewise identical whatever
    their storage held before (for [Extras]: all zero but the byte of
    usePoll), and they leave every byte after the object as it was. *)
Theorem memset_constructors_bytes (S : StreamStats.layout) (C : StreamConfig.layout)
    (E : Extras.layout) (raw raw' : list byte) :
  (Extras.off_usePoll E < Extras.sizeof E)%nat ->
  (take (StreamStats.sizeof S) (StreamStats.ctor_mem S raw)
   = take (StreamStats.sizeof S) (StreamStats.ctor_mem S raw')
   /\ drop (StreamStats.sizeof S) (StreamStats.ctor_mem S raw)
      = drop (StreamStats.sizeof S) raw)
  /\ (take (StreamConfig.sizeof C) (StreamConfig.ctor_mem C raw)
      = take (StreamConfig.sizeof C) (StreamConfig.ctor_mem C raw')
      /\ drop (StreamConfig.sizeof C) (StreamConfig.ctor_mem C raw)
         = drop (StreamConfig.sizeof C) raw)
  /\ (take (Extras.sizeof E) (Extras.ctor_mem E raw)
      = <[Extras.off_usePoll E := x01]> (replicate (Extras.sizeof E) x00)
      /\ drop (Extras.sizeof E) (Extras.ctor_mem E raw) = drop (Extras.sizeof E) raw).
Proof.
  intros HE.
  unfold StreamStats.ctor_mem, StreamConfig.ctor_mem, Extras.ctor_mem, store_byte.
  repeat split.
  - destruct (memset_bytes raw x00 (StreamStats.sizeof S)) as (-> & _).
    destruct (memset_bytes raw' x00 (StreamStats.sizeof S)) as (-> & _). done.
  - apply memset_bytes.
  - destruct (memset_bytes raw x00 (StreamConfig.sizeof C)) as (-> & _).
    destruct (memset_bytes raw' x00 (StreamConfig.sizeof C)) as (-> & _). done.
  - apply memset_bytes.
  - rewrite take_insert_lt by exact HE.
    destruct (memset_bytes raw x00 (Extras.sizeof E)) as (-> & _). done.
  - rewrite drop_insert_lt by exact HE. apply memset_bytes.
Qed.

Lemma memset_constructors_bytes_witness :
  take 16 (Extras.ctor_mem Extras.lp64 (replicate 20 xff))
  = x01 :: replicate 15 x00
  /\ drop 16 (Extras.ctor_mem Extras.lp64 (replicate 20 xff)) = replicate 4 xff.
Proof.
  assert (H : (Extras.off_usePoll Extras.lp64 < Extras.sizeof Extras.lp64)%nat)
    by (simpl; lia).
  destruct (memset_constructors_bytes StreamStats.lp64 StreamConfig.lp64 Extras.lp64
              (replicate 20 xff) (replicate 20 x07) H) as (_ & _ & H1 & H2).
  split; [exact H1|exact H2].
Defined.

(** ** The optional operations, one after the other *)

Lemma invoke_inert (Device : Type) (self : Device) (call : OptionalCall) :
  snd (invoke Device self call) = self
  /\ reports_success (fst (invoke Device self call)) = false.
Proof. destruct call; split; reflexivity. Qed.

(** X5: on a device that overrides none of them, no sequence of GPIO,
    custom-parameter, log-callback and internal-chip calls ever changes
    the device or reports a success: every call is answered (one result
    per call), each [int] result is negative, each chip is null, and the
    device after the last call is the device before the first. *)
Theorem optional_calls_inert (Device : Type) (calls : list OptionalCall) :
  forall self : Device,
    snd (invoke_all Device self calls) = self
    /\ length (fst (invoke_all Device self calls)) = length calls
    /\ Forall (fun r => reports_success r = false) (fst (invoke_all Device self calls)).
Proof.
  induction calls as [|call calls IH]; intros self; simpl.
  - repeat split. constructor.
  - destruct (invoke_inert Device self call) as [E1 E2].
    rewrite E1. destruct (IH self) as (H1 & H2 & H3).
    repeat split; [exact H1|by rewrite H2|]. by constructor.
Qed.

Example optional_calls_example :
  invoke_all nat 7%nat
    [CallSetDataLogCallback 4096%N; CallGPIOWrite [x01] 1; CallGetInternalChip 0;
     CallCustomParameterRead [1%N] [] 1 None]
  = ([RetVoid; RetInt (-1); RetChip nullptr; RetInt (-1)], 7%nat).
Proof. reflexivity. Qed.

(** ** Enumerations *)

Lemma ClockID_of_N_inv (v : N) (c : ClockID) :
  ClockID_of_N v = Some c -> v = ClockID_to_N c.
Proof.
  destruct v as [|p]; simpl; [intros H; by simplify_eq|].
  do 3 (try destruct p as [p|p|]); simpl; intros H; by simplify_eq.
Qed.

Lemma LogLevel_of_N_inv (v : N) (l : LogLevel) :
  LogLevel_of_N v = Some l -> v = LogLevel_to_N l.
Proof.
  destruct v as [|p]; simpl; [intros H; by simplify_eq|].
  do 3 (try destruct p as [p|p|]); simpl; intros H; by simplify_eq.
Qed.

Lemma DataFormat_of_N_inv (v : N) (f : DataFormat) :
  DataFormat_of_N v = Some f -> v = DataFormat_to_N f.
Proof.
  destruct v as [|p]; simpl; [intros H; by simplify_eq|].
  do 2 (try destruct p as [p|p|]); simpl; intros H; by simplify_eq.
Qed.

(** X6: the enumerators of [ClockID], [LogLevel] and [DataFormat] are
    numbered without gaps from 0 (0..5, 0..5 and 0..2): an integer decodes
    to an enumerator exactly when it is that enumerator's value, so
    distinct enumerators have distinct values, and a [ClockID] survives
    the passage through the [uint8_t clk_id] parameter. *)
Theorem enumerator_values :
  (forall v c, ClockID_of_N v = Some c <-> v = ClockID_to_N c)
  /\ (forall v l, LogLevel_of_N v = Some l <-> v = LogLevel_to_N l)
  /\ (forall v f, DataFormat_of_N v = Some f <-> v = DataFormat_to_N f)
  /\ (forall v, (is_Some (ClockID_of_N v) <-> (v < 6)%N)
                /\ (is_Some (LogLevel_of_N v) <-> (v < 6)%N)
                /\ (is_Some (DataFormat_of_N v) <-> (v < 3)%N))
  /\ (forall c, ClockID_of_N (to_uint8 (ClockID_to_N c)) = Some c).
Proof.
  split; [|split; [|split; [|split]]].
  - intros v c. split; [apply ClockID_of_N_inv|]. intros ->. by destruct c.
  - intros v l. split; [apply LogLevel_of_N_inv|]. intros ->. by destruct l.
  - intros v f. split; [apply DataFormat_of_N_inv|]. intros ->. by destruct f.
  - intros v. repeat split.
    + intros [c Hc]. apply ClockID_of_N_inv in Hc. subst v. destruct c; simpl; lia.
    + intros H. destruct v as [|p]; [eexists; reflexivity|].
      do 3 (try destruct p as [p|p|]); simpl; try (eexists; reflexivity); lia.
    + intros [c Hc]. apply LogLevel_of_N_inv in Hc. subst v. destruct c; simpl; lia.
    + intros H. destruct v as [|p]; [eexists; reflexivity|].
      do 3 (try destruct p as [p|p|]); simpl; try (eexists; reflexivity); lia.
    + intros [c Hc]. apply DataFormat_of_N_inv in Hc. subst v. destruct c; simpl; lia.
    + intros H. destruct v as [|p]; [eexists; reflexivity|].
      do 2 (try destruct p as [p|p|]); simpl; try (eexists; reflexivity); lia.
  - intros c. by destruct c.
Qed.
